(** * A nonce challenge, a hand-off and a fortune: the three programs of the
      repository, embedded and verified.

    The repository holds three Go programs, each a [package main]:
    - [auth-server.go] (the aserver): answers any datagram that is not a
      [HashMessage] with a [NonceMessage], and a [HashMessage] with either an
      [ErrMessage] or the [FortuneInfoMessage] it obtains from the fserver by
      RPC;
    - the fortune server (the fserver): hands out fortune nonces over RPC
      ([GetFortuneInfo]) and answers [FortuneReqMessage] datagrams ([fortune]);
    - [client.go]: drives the three round trips.

    Layout: the parts of Go's standard library the programs call ([Go]), the
    wire messages, one module per program, a small runnable instance of the
    two interfaces left open, then the properties. *)

From Stdlib Require Import ZArith Lia List String Ascii Bool.
From stdpp Require Import base option gmap strings list.
Import ListNotations.

Local Open Scope Z_scope.

(** ** The Go standard library, as far as the programs use it *)

Module Go.

(** A byte is a [Z] in [0, 256); a byte slice is a list of them. *)
Abbreviation byte := Z (only parsing).

Definition uint8 (z : Z) : Z := z mod 2 ^ 8.
Definition uint32 (z : Z) : Z := z mod 2 ^ 32.
Definition uint64 (z : Z) : Z := z mod 2 ^ 64.

(** [int64(z)]: the two's complement value of the low 64 bits. *)
Definition int64 (z : Z) : Z := (z + 2 ^ 63) mod 2 ^ 64 - 2 ^ 63.

(** [a + b] on [int64] operands wraps around. *)
Definition add64 (a b : Z) : Z := int64 (a + b).

(** [[]byte(s)] *)
Definition bytes_of_string (s : string) : list byte :=
  map (fun c => Z.of_N (N_of_ascii c)) (list_ascii_of_string s).

(** *** encoding/binary *)

Definition MaxVarintLen64 : nat := 10.

(** [binary.PutUvarint(buf, x)]:
<<
    i := 0
    for x >= 0x80 { buf[i] = byte(x) | 0x80; x >>= 7; i++ }
    buf[i] = byte(x)
    return i + 1
>>
    The recursion walks [buf[i:]]; an index past the end of the slice is a
    run-time panic, here [None].  The result is the slice after the writes
    and the number of bytes written. *)
Fixpoint PutUvarint (buf : list byte) (x : Z) : option (list byte * nat) :=
  match buf with
  | [] => None
  | b :: rest =>
      if 0x80 <=? x then
        match PutUvarint rest (Z.shiftr x 7) with
        | Some (rest', n) => Some (Z.lor (uint8 x) 0x80 :: rest', S n)
        | None => None
        end
      else Some (uint8 x :: rest, 1%nat)
  end.

(** The zig-zag step of [binary.PutVarint]:
<<
    ux := uint64(x) << 1
    if x < 0 { ux = ^ux }
>> *)
Definition zigzag (x : Z) : Z :=
  let ux := uint64 (Z.shiftl (uint64 x) 1) in
  if x <? 0 then Z.lxor ux (2 ^ 64 - 1) else ux.

Definition PutVarint (buf : list byte) (x : Z) : option (list byte * nat) :=
  PutUvarint buf (zigzag x).

(** *** encoding/hex *)

Definition hextable : string := "0123456789abcdef".

Definition hexdigit (n : Z) : ascii :=
  match String.get (Z.to_nat n) hextable with
  | Some c => c
  | None => "0"%char
  end.

(** [hex.EncodeToString]: two digits per byte, high nibble first. *)
Fixpoint EncodeToString (src : list byte) : string :=
  match src with
  | [] => EmptyString
  | v :: rest =>
      String (hexdigit (Z.shiftr v 4))
        (String (hexdigit (Z.land v 0x0f)) (EncodeToString rest))
  end.

(** *** crypto/md5 (RFC 1321) *)

Module md5.

Definition shifts : list Z :=
  [ 7; 12; 17; 22; 7; 12; 17; 22; 7; 12; 17; 22; 7; 12; 17; 22;
    5;  9; 14; 20; 5;  9; 14; 20; 5;  9; 14; 20; 5;  9; 14; 20;
    4; 11; 16; 23; 4; 11; 16; 23; 4; 11; 16; 23; 4; 11; 16; 23;
    6; 10; 15; 21; 6; 10; 15; 21; 6; 10; 15; 21; 6; 10; 15; 21 ].

Definition table : list Z :=
  [ 0xd76aa478; 0xe8c7b756; 0x242070db; 0xc1bdceee;
    0xf57c0faf; 0x4787c62a; 0xa8304613; 0xfd469501;
    0x698098d8; 0x8b44f7af; 0xffff5bb1; 0x895cd7be;
    0x6b901122; 0xfd987193; 0xa679438e; 0x49b40821;
    0xf61e2562; 0xc040b340; 0x265e5a51; 0xe9b6c7aa;
    0xd62f105d; 0x02441453; 0xd8a1e681; 0xe7d3fbc8;
    0x21e1cde6; 0xc33707d6; 0xf4d50d87; 0x455a14ed;
    0xa9e3e905; 0xfcefa3f8; 0x676f02d9; 0x8d2a4c8a;
    0xfffa3942; 0x8771f681; 0x6d9d6122; 0xfde5380c;
    0xa4beea44; 0x4bdecfa9; 0xf6bb4b60; 0xbebfbc70;
    0x289b7ec6; 0xeaa127fa; 0xd4ef3085; 0x04881d05;
    0xd9d4d039; 0xe6db99e5; 0x1fa27cf8; 0xc4ac5665;
    0xf4292244; 0x432aff97; 0xab9423a7; 0xfc93a039;
    0x655b59c3; 0x8f0ccc92; 0xffeff47d; 0x85845dd1;
    0x6fa87e4f; 0xfe2ce6e0; 0xa3014314; 0x4e0811a1;
    0xf7537e82; 0xbd3af235; 0x2ad7d2bb; 0xeb86d391 ].

Definition rotl32 (x c : Z) : Z :=
  uint32 (Z.lor (Z.shiftl x c) (Z.shiftr x (32 - c))).

Definition not32 (x : Z) : Z := Z.lxor x (2 ^ 32 - 1).

(** Little-endian bytes of a word, [n] of them. *)
Fixpoint le_bytes (n : nat) (x : Z) : list byte :=
  match n with
  | O => []
  | S n' => uint8 x :: le_bytes n' (Z.shiftr x 8)
  end.

Fixpoint le_word (bs : list byte) : Z :=
  match bs with
  | [] => 0
  | b :: rest => Z.lor b (Z.shiftl (le_word rest) 8)
  end.

(** The message followed by [0x80], zeros up to 56 modulo 64, and the bit
    length on 8 bytes. *)
Definition pad (msg : list byte) : list byte :=
  let len := Z.of_nat (length msg) in
  let zeros := Z.to_nat ((55 - len) mod 64) in
  msg ++ [0x80] ++ repeat 0 zeros ++ le_bytes 8 (uint64 (8 * len)).

(** The sixteen words of a 64-byte block. *)
Fixpoint words (n : nat) (block : list byte) : list Z :=
  match n with
  | O => []
  | S n' => le_word (firstn 4 block) :: words n' (skipn 4 block)
  end.

Record digest := Digest { dA : Z; dB : Z; dC : Z; dD : Z }.

Definition init : digest :=
  Digest 0x67452301 0xefcdab89 0x98badcfe 0x10325476.

(** One of the 64 operations, on step [i]. *)
Definition step (M : list Z) (d : digest) (i : Z) : digest :=
  let '(Digest a b c d0) := d in
  let '(f, g) :=
    if i <? 16 then (Z.lor (Z.land b c) (Z.land (not32 b) d0), i)
    else if i <? 32 then
      (Z.lor (Z.land d0 b) (Z.land (not32 d0) c), (5 * i + 1) mod 16)
    else if i <? 48 then (Z.lxor (Z.lxor b c) d0, (3 * i + 5) mod 16)
    else (Z.lxor c (Z.lor b (not32 d0)), (7 * i) mod 16) in
  let sum :=
    uint32 (f + a + nth (Z.to_nat i) table 0 + nth (Z.to_nat g) M 0) in
  Digest d0 (uint32 (b + rotl32 sum (nth (Z.to_nat i) shifts 0))) b c.

Definition block (d : digest) (blk : list byte) : digest :=
  let M := words 16 blk in
  let d' := fold_left (step M) (map Z.of_nat (seq 0 64)) d in
  Digest (uint32 (dA d + dA d')) (uint32 (dB d + dB d'))
         (uint32 (dC d + dC d')) (uint32 (dD d + dD d')).

(** The padded message, 64 bytes at a time; [n] counts the blocks. *)
Fixpoint blocks (n : nat) (d : digest) (data : list byte) : digest :=
  match n with
  | O => d
  | S n' => blocks n' (block d (firstn 64 data)) (skipn 64 data)
  end.

(** [md5.Sum(data)]: the 16 bytes of the checksum. *)
Definition Sum (data : list byte) : list byte :=
  let p := pad data in
  let d := blocks (length p / 64) init p in
  le_bytes 4 (dA d) ++ le_bytes 4 (dB d) ++
  le_bytes 4 (dC d) ++ le_bytes 4 (dD d).

End md5.

(** *** math/rand

    The generator behind [rand.Seed] and [rand.Int63] is left open: a
    [Source] gives the state a seed determines and the 64-bit draw.  As in
    Go, seeding discards whatever state the generator had. *)

Module rand.

Class Source (S : Type) := {
  Seed : Z -> S;
  Uint64 : S -> Z * S
}.

Definition rngMask : Z := 2 ^ 63 - 1.

(** [Int63]: [int64(rng.Uint64() & rngMask)]. *)
Definition Int63 {S} {src : Source S} (g : S) : Z * S :=
  let '(u, g') := Uint64 g in (Z.land u rngMask, g').

End rand.

(** *** encoding/json

    Decoding a datagram into a struct is left open: [Unmarshal] returns the
    filled struct, or [None] where [json.Unmarshal] returns an error. *)

Module json.

Class Decoder (T : Type) := Unmarshal : list byte -> option T.

(** Encoding is left open the same way: [Marshal] is the text
    [json.Marshal] returns for a struct (for the structs of these programs
    it returns no error). *)
Class Encoder (T : Type) := Marshal : T -> list byte.

End json.

(** *** strconv and net, as far as [main] of the client uses them

    [ParseInt s] stands for [strconv.ParseInt(s, 10, 64)], and
    [ResolveUDPAddr s] for [net.ResolveUDPAddr("udp", s)], giving the
    address in the form its [String] method prints; [None] is an error. *)

Module strconv.
Class Parser := ParseInt : string -> option Z.
End strconv.

Module net.
Class Resolver := ResolveUDPAddr : string -> option string.
End net.

(** Go's [error]: [None] is [nil]. *)
Definition error : Type := option string.

End Go.

(** ** The wire messages *)

(** An error message from the server. *)
Record ErrMessage := { Error : string }.

(** Message containing a nonce from auth-server. *)
Record NonceMessage := { Nonce : Z }.

(** Message containing an MD5 hash from client to auth-server. *)
Record HashMessage := { Hash : string }.

(** Message with details for contacting the fortune-server. *)
Record FortuneInfoMessage := { FortuneServer : string; FortuneNonce : Z }.

(** Message requesting a fortune from the fortune-server.  Its Go field is
    [FortuneNonce] too; projections share one name space here. *)
Record FortuneReqMessage := { ReqFortuneNonce : Z }.

(** Response from the fortune-server containing the fortune. *)
Record FortuneMessage := { Fortune : string }.

(** The struct a server hands to [json.Marshal] before [conn.WriteToUDP]. *)
Inductive Payload :=
| SendErr (e : ErrMessage)
| SendNonce (n : NonceMessage)
| SendFortuneInfo (f : FortuneInfoMessage)
| SendFortune (f : FortuneMessage).

(** What one request handler does towards the network: one datagram to an
    address, a return without writing, or a run-time panic. *)
Inductive Outcome :=
| WriteToUDP (p : Payload) (to : string)
| NoReply
| Panic.

(** ** The fortune server *)

Module FortuneServer.
Section Program.
Context {S : Type} {src : Go.rand.Source S}.
Context {dec : Go.json.Decoder FortuneReqMessage}.

(** The receiver of the RPC methods.  The mutex brackets each single access
    to [m]; a handler is one step here, so it leaves no trace. *)
Record FortuneServerRPC := {
  m : gmap string Z;
  server : string
}.

(** The process: the registered receiver and the package-level generator of
    [math/rand]. *)
Record Process := {
  fortuneServerRPC : FortuneServerRPC;
  globalRand : S
}.

(** [main] before its loop: the receiver is registered with an empty map
    and the UDP address of the process; [g] is the generator as the run
    time left it. *)
Definition start (fserverUDP : string) (g : S) : Process :=
  {| fortuneServerRPC := {| m := ∅; server := fserverUDP |};
     globalRand := g |}.

(** [func (this *FortuneServerRPC) GetFortuneInfo(clientAddr, fInfoMsg) error]:
    the process afterwards, [*fInfoMsg], and the error. *)
Definition GetFortuneInfo (p : Process) (clientAddr : string)
    : Process * FortuneInfoMessage * Go.error :=
  let this := fortuneServerRPC p in
  let '(newNonce, g) := Go.rand.Int63 (Go.rand.Seed 110) in
  let this' := {| m := <[clientAddr := newNonce]> (m this);
                  server := server this |} in
  ({| fortuneServerRPC := this'; globalRand := g |},
   {| FortuneServer := server this; FortuneNonce := newNonce |},
   None).

(** [func fortune(conn, msg, fortuneServerRPC, fortuneString, cAddr)]:
    process individual client request.  It only reads the receiver. *)
Definition fortune (msg : list Z) (this : FortuneServerRPC)
    (fortuneString : string) (cAddr : string) : Outcome :=
  match Go.json.Unmarshal msg with
  | None =>
      WriteToUDP (SendErr {| Error := "could not interpret message" |}) cAddr
  | Some fortuneReq =>
      match m this !! cAddr with
      | None =>
          WriteToUDP
            (SendErr {| Error := "unknown remote client address" |}) cAddr
      | Some validNonce =>
          if negb (ReqFortuneNonce fortuneReq =? validNonce) then
            WriteToUDP (SendErr {| Error := "incorrect fortune nonce" |}) cAddr
          else
            WriteToUDP (SendFortune {| Fortune := fortuneString |}) cAddr
      end
  end.

(** What reaches the fserver: a datagram on its UDP socket, or a call of
    [GetFortuneInfo] accepted by [rpc.Accept]. *)
Inductive Event :=
| Datagram (datagram : list Z) (cAddr : string)
| Call (clientAddr : string).

(** The fserver at work: the loop of [main] runs [fortune] on [msg[0:n]] of
    its 1024-byte buffer for each datagram, and the RPC server runs
    [GetFortuneInfo] for each call; here in the order the events arrive.
    The result is the process and what went out: the datagrams written, and
    the grants returned to the caller. *)
Fixpoint serve (p : Process) (fortuneString : string) (events : list Event)
    : Process * list (Outcome + FortuneInfoMessage) :=
  match events with
  | [] => (p, [])
  | Datagram datagram cAddr :: rest =>
      let o :=
        fortune (firstn 1024 datagram) (fortuneServerRPC p) fortuneString cAddr in
      let '(p', out) := serve p fortuneString rest in
      (p', inl o :: out)
  | Call clientAddr :: rest =>
      let '(p1, fInfoMsg, _) := GetFortuneInfo p clientAddr in
      let '(p', out) := serve p1 fortuneString rest in
      (p', inr fInfoMsg :: out)
  end.

End Program.
End FortuneServer.

(** ** net/rpc between the two servers *)

Module rpc.
Section Client.
Context {S : Type} {src : Go.rand.Source S}.

(** The aserver's [*rpc.Client]: the fserver process at the other end and
    whether the connection still stands. *)
Record Client := {
  remote : FortuneServer.Process (S := S);
  shutdown : bool
}.

(** [client.Call("FortuneServerRPC.GetFortuneInfo", args, reply)]: on a shut
    connection [ErrShutdown]; otherwise the method runs at the fserver, and
    [*reply] is written only when the method returned [nil].  A connection
    that breaks while the call is pending (the method has run, the call
    returns an error) is not part of this model. *)
Definition Call_GetFortuneInfo (c : Client) (args : string)
    (reply : FortuneInfoMessage) : Client * FortuneInfoMessage * Go.error :=
  if shutdown c then (c, reply, Some "connection is shut down"%string)
  else
    let '(p', r, err) := FortuneServer.GetFortuneInfo (remote c) args in
    let c' := {| remote := p'; shutdown := shutdown c |} in
    match err with
    | None => (c', r, None)
    | Some e => (c', reply, Some e)
    end.

End Client.
End rpc.

(** ** The authorization server *)

Module AuthServer.
Section Program.
Context {S : Type} {src : Go.rand.Source S}.
Context {dec : Go.json.Decoder HashMessage}.

(** Keep track of client state: the nonce assigned to each client.  As for
    the fserver, the mutex leaves no trace in a one-step handler. *)
Record ClientRecords := { m : gmap string Z }.

Record Process := {
  records : ClientRecords;
  globalRand : S
}.

(** [main] before its loop: [records := ClientRecords{m: make(map[string]int64)}]. *)
Definition start (g : S) : Process :=
  {| records := {| m := ∅ |}; globalRand := g |}.

(** [func handleRequest(conn, msg, record, rpcClient, secret, cAddr)];
    [cAddr] stands for [cAddr.String()], the only use made of it besides
    addressing the reply. *)
Definition handleRequest (p : Process) (msg : list Z)
    (rpcClient : rpc.Client (S := S)) (secret : Z) (cAddr : string)
    : Process * rpc.Client (S := S) * Outcome :=
  match Go.json.Unmarshal msg with
  | None =>
      (* if received message is not hash, return nonce message *)
      let '(newNonce, g) := Go.rand.Int63 (Go.rand.Seed 222) in
      ({| records := {| m := <[cAddr := newNonce]> (m (records p)) |};
          globalRand := g |},
       rpcClient,
       WriteToUDP (SendNonce {| Nonce := newNonce |}) cAddr)
  | Some hash =>
      (* if received message is hash, check against saved nonce *)
      match m (records p) !! cAddr with
      | None =>
          (p, rpcClient,
           WriteToUDP
             (SendErr {| Error := "unknown remote client address" |}) cAddr)
      | Some validNonce =>
          let value := Go.add64 validNonce secret in
          match Go.PutVarint msg value with
          | None => (p, rpcClient, Panic)
          | Some (msg', n) =>
              let hashmd5 := Go.md5.Sum (firstn n msg') in
              let hashStr := Go.EncodeToString hashmd5 in
              if String.eqb hashStr (Hash hash) then
                (* get fortune nonce from fserver *)
                let '(rpcClient', fInfoMsg, err) :=
                  rpc.Call_GetFortuneInfo rpcClient cAddr
                    {| FortuneServer := EmptyString; FortuneNonce := 0 |} in
                match err with
                | None =>
                    (p, rpcClient',
                     WriteToUDP (SendFortuneInfo fInfoMsg) cAddr)
                | Some _ => (p, rpcClient', NoReply)
                end
              else
                (p, rpcClient,
                 WriteToUDP
                   (SendErr {| Error := "unexpected hash value" |}) cAddr)
          end
      end
  end.

(** The buffer of [main]'s loop: [msg := make([]byte, 1024)], handed on as
    [msg[0:n]]; a datagram longer than the buffer is cut at 1024 bytes. *)
Definition ReadFromUDP (datagram : list Z) : list Z := firstn 1024 datagram.

(** The loop of [main]: one [handleRequest] per datagram read, here in the
    order read and each run to its end before the next (the goroutines of
    the program may interleave); a panic in a handler ends the process, and
    the datagrams after it are not handled.  The result is the two processes
    and the outcomes in order. *)
Fixpoint serve (p : Process) (rpcClient : rpc.Client (S := S)) (secret : Z)
    (inbox : list (list Z * string))
    : Process * rpc.Client (S := S) * list Outcome :=
  match inbox with
  | [] => (p, rpcClient, [])
  | (datagram, cAddr) :: rest =>
      let '(p', rpcClient', o) :=
        handleRequest p (ReadFromUDP datagram) rpcClient secret cAddr in
      match o with
      | Panic => (p', rpcClient', [Panic])
      | _ =>
          let '(p'', rpcClient'', os) := serve p' rpcClient' secret rest in
          (p'', rpcClient'', o :: os)
      end
  end.

End Program.
End AuthServer.

(** ** The client *)

Module Client.

(** [msg := make([]byte, 1024); msg[2] = byte(2)]: the first datagram. *)
Definition probe : list Z := <[2%nat := 2]> (repeat 0 1024).

(** The hash step of [main], on the 1024-byte buffer [msg] (which holds the
    reply just read) and the decoded [nonce]: [None] is a panic. *)
Definition hashStr (msg : list Z) (nonce : NonceMessage) (secret : Z)
    : option string :=
  let value := Go.add64 (Nonce nonce) secret in
  match Go.PutVarint msg value with
  | None => None
  | Some (msg', n) =>
      let hash := Go.md5.Sum (firstn n msg') in
      Some (Go.EncodeToString hash)
  end.

(** [json.Marshal(hashMsg)] for a hash of hex digits, none of which JSON
    escapes: the object with the one key [Hash]. *)
Definition sendmsg (hashMsg : HashMessage) : list Z :=
  [0x7b; 0x22; 0x48; 0x61; 0x73; 0x68; 0x22; 0x3a; 0x22]
    ++ Go.bytes_of_string (Hash hashMsg) ++ [0x22; 0x7d].

(** The bytes [main] hands to [md5.Sum]: [msg[:n]] after
    [n = binary.PutVarint(msg, nonce.Nonce + secret)]. *)
Definition digestInput (msg : list Z) (nonce : NonceMessage) (secret : Z)
    : option (list Z) :=
  match Go.PutVarint msg (Go.add64 (Nonce nonce) secret) with
  | None => None
  | Some (msg', n) => Some (firstn n msg')
  end.

(** [conn.Read(msg)]: the datagram, cut at the length of the buffer,
    overwrites the front of [msg]; the result is the buffer and the number
    of bytes read. *)
Definition readInto (msg datagram : list Z) : list Z * nat :=
  let d := firstn (length msg) datagram in
  (d ++ skipn (length d) msg, length d).

(** What [main] does towards the operating system, call by call.  Each call
    that returns an error in Go hands its outcome to the continuation:
    [true] or [Some] for a nil error. *)
Inductive Proc :=
| DialUDP (laddr raddr : string) (k : bool -> Proc)
| Write (data : list Z) (k : bool -> Proc)
| Read (k : option (list Z) -> Proc)
| Close (k : bool -> Proc)
| Println (line : string)
| Exit (code : Z)
| Crash.

Section Main.
Context {parser : Go.strconv.Parser} {resolver : Go.net.Resolver}.
Context {decN : Go.json.Decoder NonceMessage}.
Context {decI : Go.json.Decoder FortuneInfoMessage}.
Context {decF : Go.json.Decoder FortuneMessage}.
Context {encQ : Go.json.Encoder FortuneReqMessage}.

(** [printErr(err)] before going on with [k]: [os.Exit(1)] on an error. *)
Definition printErr (ok : bool) (k : Proc) : Proc :=
  if ok then k else Exit 1.

(** The last round trip of [main]: the request to the fserver and the
    fortune printed. *)
Definition askFortune (msg : list Z) (fortuneInfo : FortuneInfoMessage) : Proc :=
  let fortuneReqMsg := {| ReqFortuneNonce := FortuneNonce fortuneInfo |} in
  Write (Go.json.Marshal fortuneReqMsg) (fun ok => printErr ok (
  Read (fun r =>
    match r with
    | None => Exit 1
    | Some datagram =>
        let '(msg, n) := readInto msg datagram in
        match Go.json.Unmarshal (T := FortuneMessage) (firstn n msg) with
        | None => Exit 1
        | Some fMsg => Println (Fortune fMsg)
        end
    end))).

(** The middle of [main]: the hash sent to the aserver, its reply decoded
    as a [FortuneInfoMessage], and the socket moved over to the fserver. *)
Definition answerChallenge (lAddr : string) (msg : list Z)
    (nonce : NonceMessage) (secret : Z) : Proc :=
  let value := Go.add64 (Nonce nonce) secret in
  match Go.PutVarint msg value with
  | None => Crash
  | Some (msg, n) =>
      let hash := Go.md5.Sum (firstn n msg) in
      let hashStr := Go.EncodeToString hash in
      let hashMsg := {| Hash := hashStr |} in
      Write (sendmsg hashMsg) (fun ok => printErr ok (
      Read (fun r =>
        match r with
        | None => Exit 1
        | Some datagram =>
            let '(msg, n) := readInto msg datagram in
            match Go.json.Unmarshal (T := FortuneInfoMessage) (firstn n msg) with
            | None => Exit 1
            | Some fortuneInfo =>
                match Go.net.ResolveUDPAddr (FortuneServer fortuneInfo) with
                | None => Exit 1
                | Some fAddr =>
                    Close (fun ok => printErr ok (
                    DialUDP lAddr fAddr (fun ok => printErr ok (
                    askFortune msg fortuneInfo))))
                end
            end
        end)))
  end.

(** [func main()], on [os.Args[1]], [os.Args[2]] and [os.Args[3]]. *)
Definition main (localAddr serverAddr secretStr : string) : Proc :=
  match Go.strconv.ParseInt secretStr with
  | None => Exit 1
  | Some secret =>
      let msg := repeat 0 1024 in
      match Go.net.ResolveUDPAddr serverAddr with
      | None => Exit 1
      | Some aAddr =>
          match Go.net.ResolveUDPAddr localAddr with
          | None => Exit 1
          | Some lAddr =>
              DialUDP lAddr aAddr (fun ok => printErr ok (
              let msg := <[2%nat := 2]> msg in
              Write msg (fun ok => printErr ok (
              Read (fun r =>
                match r with
                | None => Exit 1
                | Some datagram =>
                    let '(msg, n) := readInto msg datagram in
                    match Go.json.Unmarshal (T := NonceMessage) (firstn n msg) with
                    | None => Exit 1
                    | Some nonce => answerChallenge lAddr msg nonce secret
                    end
                end)))))
          end
      end
  end.

(** [func main()] from its first line: [os.Args[1]], [os.Args[2]] and
    [os.Args[3]] are indexed without a look at [len(os.Args)], each a
    run-time panic when out of range. *)
Definition mainFromArgs (Args : list string) : Proc :=
  match Args !! 1%nat with
  | None => Crash
  | Some localAddr =>
      match Args !! 2%nat with
      | None => Crash
      | Some serverAddr =>
          match Args !! 3%nat with
          | None => Crash
          | Some secretStr => main localAddr serverAddr secretStr
          end
      end
  end.

End Main.

End Client.

(** ** The client against the two servers

    An environment for [Client.main] in which every call to the operating
    system succeeds and every datagram written arrives at once: a datagram
    to the address of the aserver runs [handleRequest], one to the address
    of the fserver runs [fortune], and what the handler writes back to the
    client's address is queued for the client's next [Read]. *)

Module System.
Section Run.
Context {S : Type} {src : Go.rand.Source S}.
Context {decH : Go.json.Decoder HashMessage}.
Context {decR : Go.json.Decoder FortuneReqMessage}.
Context {encE : Go.json.Encoder ErrMessage}.
Context {encN : Go.json.Encoder NonceMessage}.
Context {encI : Go.json.Encoder FortuneInfoMessage}.
Context {encF : Go.json.Encoder FortuneMessage}.

(** The two servers as started from their command lines: the address each
    listens on for datagrams, the aserver's secret and the fserver's
    fortune, the two processes (the fserver's behind the aserver's RPC
    client), and whether the aserver has died of a panic. *)
Record World := {
  aserverAddr : string;
  secret : Z;
  aserver : AuthServer.Process (S := S);
  rpcClient : rpc.Client (S := S);
  fserverAddr : string;
  fortuneString : string;
  crashed : bool
}.

(** [json.Marshal] of the struct a handler writes. *)
Definition marshal (p : Payload) : list Z :=
  match p with
  | SendErr e => Go.json.Marshal e
  | SendNonce n => Go.json.Marshal n
  | SendFortuneInfo f => Go.json.Marshal f
  | SendFortune f => Go.json.Marshal f
  end.

(** The datagram a handler's outcome puts on the way to [from]. *)
Definition reply (o : Outcome) (from : string) : list (list Z) :=
  match o with
  | WriteToUDP payload to =>
      if decide (to = from) then [marshal payload] else []
  | NoReply | Panic => []
  end.

(** One datagram from the client at [from] to the address [to]. *)
Definition deliver (w : World) (from to : string) (data : list Z)
    : World * list (list Z) :=
  if decide (to = aserverAddr w) then
    if crashed w then (w, [])
    else
      let '(p', c', o) :=
        AuthServer.handleRequest (aserver w) (AuthServer.ReadFromUDP data)
          (rpcClient w) (secret w) from in
      ({| aserverAddr := aserverAddr w; secret := secret w;
          aserver := p'; rpcClient := c';
          fserverAddr := fserverAddr w; fortuneString := fortuneString w;
          crashed := match o with Panic => true | _ => false end |},
       reply o from)
  else if decide (to = fserverAddr w) then
    (w,
     reply
       (FortuneServer.fortune (firstn 1024 data)
          (FortuneServer.fortuneServerRPC (rpc.remote (rpcClient w)))
          (fortuneString w) from)
       from)
  else (w, []).

(** How a run of the client ends. *)
Inductive Result :=
| Printed (line : string)
| Exited (code : Z)
| Crashed
| Blocked.

(** The client's process run against the world: [sock] is the connected
    socket (local and remote address) if one is open, [queue] the datagrams
    waiting to be read from it.  A [Read] with nothing waiting never
    returns. *)
Fixpoint run (proc : Client.Proc) (w : World) (sock : option (string * string))
    (queue : list (list Z)) : World * Result :=
  match proc with
  | Client.DialUDP laddr raddr k => run (k true) w (Some (laddr, raddr)) []
  | Client.Write data k =>
      match sock with
      | None => run (k false) w sock queue
      | Some (laddr, raddr) =>
          let '(w', replies) := deliver w laddr raddr data in
          run (k true) w' sock (queue ++ replies)
      end
  | Client.Read k =>
      match queue with
      | datagram :: rest => run (k (Some datagram)) w sock rest
      | [] => (w, Blocked)
      end
  | Client.Close k => run (k true) w None []
  | Client.Println line => (w, Printed line)
  | Client.Exit code => (w, Exited code)
  | Client.Crash => (w, Crashed)
  end.

End Run.
End System.

(** ** A runnable instance of the two open interfaces

    A 64-bit linear congruential generator for [math/rand], and decoders that
    accept the texts [json.Marshal] emits for the two request structs.  They
    serve to run the programs on concrete datagrams; the properties below
    hold for every generator and every decoder. *)

Module Demo.

Definition lcg : Go.rand.Source Z := {|
  Go.rand.Seed s := Go.uint64 s;
  Go.rand.Uint64 g :=
    let g' := Go.uint64 (g * 6364136223846793005 + 1442695040888963407) in
    (g', g')
|}.

Fixpoint strip_prefix (pre l : list Z) : option (list Z) :=
  match pre, l with
  | [], _ => Some l
  | a :: pre', b :: l' => if a =? b then strip_prefix pre' l' else None
  | _ :: _, [] => None
  end.

Definition strip_suffix (suf l : list Z) : option (list Z) :=
  match strip_prefix (rev suf) (rev l) with
  | Some r => Some (rev r)
  | None => None
  end.

(** The text between [pre] and [suf]. *)
Definition between (pre suf l : list Z) : option (list Z) :=
  match strip_prefix pre l with
  | Some r => strip_suffix suf r
  | None => None
  end.

(** A printable character that a JSON string holds unescaped. *)
Definition plain (c : Z) : bool :=
  (0x20 <=? c) && (c <? 0x7f) && negb (c =? 0x22) && negb (c =? 0x5c).

Definition string_of_bytes (bs : list Z) : string :=
  string_of_list_ascii (map (fun c => ascii_of_N (Z.to_N c)) bs).

(** The object with the one key [Hash] and a plain body, or the empty object,
    which leaves the struct at its zero value. *)
Definition decodeHash : Go.json.Decoder HashMessage := fun msg =>
  match msg with
  | [0x7b; 0x7d] => Some {| Hash := EmptyString |}
  | _ =>
      match between [0x7b; 0x22; 0x48; 0x61; 0x73; 0x68; 0x22; 0x3a; 0x22]
                    [0x22; 0x7d] msg with
      | Some body =>
          if forallb plain body then Some {| Hash := string_of_bytes body |}
          else None
      | None => None
      end
  end.

Definition digit (c : Z) : bool := (0x30 <=? c) && (c <=? 0x39).

Definition decimal (ds : list Z) : Z :=
  fold_left (fun acc c => 10 * acc + (c - 0x30)) ds 0.

(** A JSON integer that fits an [int64]. *)
Definition number (body : list Z) : option Z :=
  let '(neg, ds) :=
    match body with
    | 0x2d :: ds => (true, ds)
    | _ => (false, body)
    end in
  match ds with
  | [] => None
  | d :: rest =>
      if forallb digit ds && (negb (d =? 0x30) || (length rest =? 0)%nat) then
        let v := if neg then - decimal ds else decimal ds in
        if (- 2 ^ 63 <=? v) && (v <? 2 ^ 63) then Some v else None
      else None
  end.

Definition decodeFortuneReq : Go.json.Decoder FortuneReqMessage := fun msg =>
  match between ([0x7b; 0x22] ++ Go.bytes_of_string "FortuneNonce"
                   ++ [0x22; 0x3a]) [0x7d] msg with
  | Some body =>
      match number body with
      | Some v => Some {| ReqFortuneNonce := v |}
      | None => None
      end
  | None => None
  end.

(** The aserver and the fserver before any datagram. *)
Definition aserver0 : AuthServer.Process (S := Z) := AuthServer.start 0.

Definition fserver0 : FortuneServer.Process (S := Z) :=
  FortuneServer.start "127.0.0.1:9090" 0.

Definition link0 : rpc.Client (S := Z) :=
  {| rpc.remote := fserver0; rpc.shutdown := false |}.

Definition handleRequest :=
  AuthServer.handleRequest (src := lcg) (dec := decodeHash).

Definition fortune := FortuneServer.fortune (dec := decodeFortuneReq).

Definition GetFortuneInfo := FortuneServer.GetFortuneInfo (src := lcg).

(** One client, its secret, and the aserver after its first probe. *)
Definition addr : string := "127.0.0.1:2020".
Definition secret : Z := 1984.

Definition aserver1 : AuthServer.Process (S := Z) :=
  fst (fst (handleRequest aserver0 Client.probe link0 secret addr)).

Definition nonce1 : Z :=
  Eval vm_compute in
    fst (Go.rand.Int63 (src := lcg) (Go.rand.Seed (Source := lcg) 222)).

(** The client's answer to [nonce1], as a struct and as a datagram. *)
Definition hashMsg1 : HashMessage :=
  Eval vm_compute in
    {| Hash := default EmptyString
         (Client.hashStr (repeat 0 1024) {| Nonce := nonce1 |} secret) |}.

Definition hashDatagram1 : list Z := Client.sendmsg hashMsg1.

(** A fortune request carrying the nonce 7, and receivers that know the
    client under 7, under 8, and not at all. *)
Definition fortuneReq7 : list Z :=
  [0x7b; 0x22] ++ Go.bytes_of_string "FortuneNonce" ++ [0x22; 0x3a; 0x37; 0x7d].

Definition receiver (tokens : gmap string Z) : FortuneServer.FortuneServerRPC :=
  {| FortuneServer.m := tokens; FortuneServer.server := "127.0.0.1:9090" |}.

(** The other texts of the exchange: a key is a quoted name and a colon, a
    number is printed in decimal. *)
Definition quoted (s : string) : list Z :=
  [0x22] ++ Go.bytes_of_string s ++ [0x22].

Definition key (s : string) : list Z := quoted s ++ [0x3a].

Fixpoint digits (fuel : nat) (n : Z) (acc : list Z) : list Z :=
  match fuel with
  | O => acc
  | Datatypes.S fuel' =>
      let acc' := (0x30 + n mod 10) :: acc in
      if n <? 10 then acc' else digits fuel' (n / 10) acc'
  end.

Definition print_number (v : Z) : list Z :=
  if v <? 0 then 0x2d :: digits 20 (- v) [] else digits 20 v [].

Definition encodeErr : Go.json.Encoder ErrMessage := fun e =>
  [0x7b] ++ key "Error" ++ quoted (Error e) ++ [0x7d].

Definition encodeNonce : Go.json.Encoder NonceMessage := fun n =>
  [0x7b] ++ key "Nonce" ++ print_number (Nonce n) ++ [0x7d].

Definition encodeFortuneInfo : Go.json.Encoder FortuneInfoMessage := fun f =>
  [0x7b] ++ key "FortuneServer" ++ quoted (FortuneServer f) ++ [0x2c]
    ++ key "FortuneNonce" ++ print_number (FortuneNonce f) ++ [0x7d].

Definition encodeFortune : Go.json.Encoder FortuneMessage := fun f =>
  [0x7b] ++ key "Fortune" ++ quoted (Fortune f) ++ [0x7d].

Definition encodeFortuneReq : Go.json.Encoder FortuneReqMessage := fun r =>
  [0x7b] ++ key "FortuneNonce" ++ print_number (ReqFortuneNonce r) ++ [0x7d].

Definition decodeNonce : Go.json.Decoder NonceMessage := fun msg =>
  match between ([0x7b] ++ key "Nonce") [0x7d] msg with
  | Some body =>
      match number body with
      | Some v => Some {| Nonce := v |}
      | None => None
      end
  | None => None
  end.

Definition decodeFortune : Go.json.Decoder FortuneMessage := fun msg =>
  match between ([0x7b] ++ key "Fortune" ++ [0x22]) [0x22; 0x7d] msg with
  | Some body =>
      if forallb plain body then Some {| Fortune := string_of_bytes body |}
      else None
  | None => None
  end.

(** The text up to the first quote, and the text after it. *)
Fixpoint span (l : list Z) : list Z * list Z :=
  match l with
  | [] => ([], [])
  | c :: rest =>
      if c =? 0x22 then ([], rest)
      else let '(body, after) := span rest in (c :: body, after)
  end.

Definition decodeFortuneInfo : Go.json.Decoder FortuneInfoMessage := fun msg =>
  match strip_prefix ([0x7b] ++ key "FortuneServer" ++ [0x22]) msg with
  | Some rest =>
      let '(body, after) := span rest in
      match between ([0x2c] ++ key "FortuneNonce") [0x7d] after with
      | Some digits_ =>
          match number digits_ with
          | Some v =>
              if forallb plain body then
                Some {| FortuneServer := string_of_bytes body;
                        FortuneNonce := v |}
              else None
          | None => None
          end
      | None => None
      end
  | None => None
  end.

Definition parseInt : Go.strconv.Parser := fun s =>
  number (Go.bytes_of_string s).

(** Addresses already in the form their [String] method prints. *)
Definition resolve : Go.net.Resolver := fun s => Some s.

(** The two servers of the example and the client's command line. *)
Definition world0 : System.World (S := Z) :=
  {| System.aserverAddr := "127.0.0.1:7070";
     System.secret := secret;
     System.aserver := aserver0;
     System.rpcClient := link0;
     System.fserverAddr := "127.0.0.1:9090";
     System.fortuneString := "seize the day";
     System.crashed := false |}.

Definition main : Client.Proc :=
  Client.main (parser := parseInt) (resolver := resolve) (decN := decodeNonce)
    (decI := decodeFortuneInfo) (decF := decodeFortune)
    (encQ := encodeFortuneReq) addr "127.0.0.1:7070" "1984".

Definition run :=
  System.run (src := lcg) (decH := decodeHash) (decR := decodeFortuneReq)
    (encE := encodeErr) (encN := encodeNonce) (encI := encodeFortuneInfo)
    (encF := encodeFortune).

(** The aserver's loop on the example's datagrams. *)
Definition serve :=
  AuthServer.serve (src := lcg) (dec := decodeHash).

(** The client's answer handled: the RPC client afterwards, the grant in
    the reply, and the client's request carrying the grant's nonce. *)
Definition link1 : rpc.Client (S := Z) :=
  snd (fst (handleRequest aserver1 hashDatagram1 link0 secret addr)).

Definition nonce110 : Z :=
  Eval vm_compute in
    fst (Go.rand.Int63 (src := lcg) (Go.rand.Seed (Source := lcg) 110)).

Definition grant1 : FortuneInfoMessage :=
  {| FortuneServer := "127.0.0.1:9090"; FortuneNonce := nonce110 |}.

Definition fortuneReq1 : list Z :=
  encodeFortuneReq {| ReqFortuneNonce := nonce110 |}.

(** A run of the aserver: the probe, then the answer; and a run of the
    fserver: the grant, then the request. *)
Definition inbox1 : list (list Z * string) :=
  [(Client.probe, addr); (hashDatagram1, addr)].

Definition events1 : list FortuneServer.Event :=
  [FortuneServer.Call addr; FortuneServer.Datagram fortuneReq1 addr].

End Demo.

(** ** Vocabulary of the properties *)

Section Vocabulary.
Context {S : Type} {src : Go.rand.Source S}.

(** The token every [NonceMessage] of the aserver carries, and the one
    every grant of the fserver carries. *)
Definition aserverToken : Z := fst (Go.rand.Int63 (Go.rand.Seed 222)).
Definition fserverToken : Z := fst (Go.rand.Int63 (Go.rand.Seed 110)).

(** What [handleRequest] does once the hash has matched: the call to the
    fserver, then the reply or, on an error, nothing. *)
Definition accepted (p : AuthServer.Process (S := S))
    (c : rpc.Client (S := S)) (cAddr : string)
    : AuthServer.Process (S := S) * rpc.Client (S := S) * Outcome :=
  let '(c', fInfoMsg, err) :=
    rpc.Call_GetFortuneInfo c cAddr
      {| FortuneServer := EmptyString; FortuneNonce := 0 |} in
  match err with
  | None => (p, c', WriteToUDP (SendFortuneInfo fInfoMsg) cAddr)
  | Some _ => (p, c', NoReply)
  end.

Definition rejected (p : AuthServer.Process (S := S))
    (c : rpc.Client (S := S)) (cAddr : string)
    : AuthServer.Process (S := S) * rpc.Client (S := S) * Outcome :=
  (p, c, WriteToUDP (SendErr {| Error := "unexpected hash value" |}) cAddr).

End Vocabulary.

(** Some behaviour of the operating system drives the process into a
    run-time panic. *)
Inductive Crashes : Client.Proc -> Prop :=
| Crashes_here : Crashes Client.Crash
| Crashes_DialUDP laddr raddr k ok :
    Crashes (k ok) -> Crashes (Client.DialUDP laddr raddr k)
| Crashes_Write data k ok : Crashes (k ok) -> Crashes (Client.Write data k)
| Crashes_Read k r : Crashes (k r) -> Crashes (Client.Read k)
| Crashes_Close k ok : Crashes (k ok) -> Crashes (Client.Close k).


(** A character of [hextable]: a decimal digit or one of [a] to [f]. *)
Definition is_lower_hex (c : ascii) : bool :=
  existsb (Ascii.eqb c) (list_ascii_of_string Go.hextable).

Example md5_empty :
  Go.EncodeToString (Go.md5.Sum []) = "d41d8cd98f00b204e9800998ecf8427e"%string.
Proof. vm_compute. reflexivity. Qed.

Example md5_abc :
  Go.EncodeToString (Go.md5.Sum (Go.bytes_of_string "abc"))
  = "900150983cd24fb0d6963f7d28e17f72"%string.
Proof. vm_compute. reflexivity. Qed.

Example md5_long :
  Go.EncodeToString (Go.md5.Sum (Go.bytes_of_string
    "12345678901234567890123456789012345678901234567890123456789012345678901234567890"))
  = "57edf4a22be3c955ac49da2e2107b67a"%string.
Proof. vm_compute. reflexivity. Qed.

Example demo_hash_1984 :
  Client.hashStr (repeat 0 1024) {| Nonce := 0 |} 1984
  = Some "750bf6901d4b18b2a6d5e934ebaf5653"%string.
Proof. vm_compute. reflexivity. Qed.

Example demo_hash_min :
  Client.hashStr (repeat 0 1024) {| Nonce := - 2 ^ 63 + 5 |} (-5)
  = Some "f2802cd26b5c7c75c96016023bed5279"%string.
Proof. vm_compute. reflexivity. Qed.

Example demo_hash_wrap :
  Client.hashStr (repeat 0 1024) {| Nonce := 2 ^ 63 - 1 |} 1
  = Some "f2802cd26b5c7c75c96016023bed5279"%string.
Proof. vm_compute. reflexivity. Qed.

Example demo_decode_hash :
  Demo.decodeHash (Client.sendmsg {| Hash := "750bf6901d4b18b2a6d5e934ebaf5653" |})
  = Some {| Hash := "750bf6901d4b18b2a6d5e934ebaf5653" |}.
Proof. vm_compute. reflexivity. Qed.

Example demo_decode_probe : Demo.decodeHash Client.probe = None.
Proof. vm_compute. reflexivity. Qed.

(** The two bytes of an empty object decode as a hash, and are too short a
    buffer for the varint of the stored nonce plus the secret: the handler
    panics. *)
Example demo_short_hash_panics :
  Demo.handleRequest Demo.aserver1 [0x7b; 0x7d] Demo.link0 Demo.secret Demo.addr
  = (Demo.aserver1, Demo.link0, Panic).
Proof. vm_compute. reflexivity. Qed.

Example demo_decode_req :
  Demo.decodeFortuneReq Demo.fortuneReq7 = Some {| ReqFortuneNonce := 7 |}.
Proof. vm_compute. reflexivity. Qed.

(** ** The varint and the checksum *)

Lemma zigzag_range (x : Z) : 0 <= Go.zigzag x < 2 ^ 64.
Proof.
  unfold Go.zigzag.
  set (ux := Go.uint64 (Z.shiftl (Go.uint64 x) 1)).
  assert (Hux : 0 <= ux < 2 ^ 64) by (apply Z.mod_pos_bound; lia).
  destruct (x <? 0); [| exact Hux].
  set (r := Z.lxor ux (2 ^ 64 - 1)).
  assert (Hr : 0 <= r) by (apply Z.lxor_nonneg; lia).
  split; [exact Hr |].
  destruct (Z.eq_dec r 0) as [-> | Hnz]; [lia |].
  apply Z.log2_lt_pow2; [lia |].
  assert (Hl : Z.log2 ux <= 63).
  { destruct (Z.eq_dec ux 0) as [-> | Hu]; [cbn; lia |].
    assert (Z.log2 ux < 64) by (apply Z.log2_lt_pow2; lia). lia. }
  assert (Hm : Z.log2 (2 ^ 64 - 1) = 63) by reflexivity.
  pose proof (Z.log2_lxor ux (2 ^ 64 - 1)) as Hx.
  fold r in Hx. lia.
Qed.

(** A buffer of [k] bytes holds every value below [2 ^ (7 k)]. *)
Lemma PutUvarint_fits (k : nat) :
  forall (buf : list Z) (x : Z),
    0 <= x < 2 ^ (7 * Z.of_nat k) -> (1 <= k)%nat -> (k <= length buf)%nat ->
    is_Some (Go.PutUvarint buf x).
Proof.
  induction k as [| k IH]; intros buf x Hx Hk Hlen; [lia |].
  destruct buf as [| b rest]; [simpl in Hlen; lia |].
  simpl. destruct (Z.leb_spec 0x80 x) as [Hbig | Hsmall]; [| eauto].
  assert (Hk1 : (1 <= k)%nat).
  { destruct k; [| lia]. simpl in Hx. lia. }
  destruct (IH rest (Z.shiftr x 7)) as [[rest' n] ->]; eauto.
  - rewrite Z.shiftr_div_pow2 by lia. split.
    + apply Z.div_pos; lia.
    + apply Z.div_lt_upper_bound; [lia |].
      rewrite <- Z.pow_add_r by lia.
      replace (7 + 7 * Z.of_nat k) with (7 * Z.of_nat (S k)) by lia. lia.
  - simpl in Hlen. lia.
Qed.

(** [PutVarint] does not panic on a buffer of [MaxVarintLen64] bytes. *)
Lemma PutVarint_fits (buf : list Z) (x : Z) :
  (Go.MaxVarintLen64 <= length buf)%nat -> is_Some (Go.PutVarint buf x).
Proof.
  intros Hlen. unfold Go.PutVarint.
  apply (PutUvarint_fits Go.MaxVarintLen64); [| unfold Go.MaxVarintLen64; lia | exact Hlen].
  pose proof (zigzag_range x) as Hz.
  assert (2 ^ 64 < 2 ^ (7 * Z.of_nat Go.MaxVarintLen64)) by reflexivity.
  lia.
Qed.

(** The bytes written do not depend on the buffer they are written to. *)
Lemma PutUvarint_written :
  forall (buf1 buf2 : list Z) (x : Z) r1 n1 r2 n2,
    Go.PutUvarint buf1 x = Some (r1, n1) ->
    Go.PutUvarint buf2 x = Some (r2, n2) ->
    n1 = n2 /\ firstn n1 r1 = firstn n2 r2.
Proof.
  induction buf1 as [| b1 rest1 IH]; intros buf2 x r1 n1 r2 n2 H1 H2;
    [discriminate |].
  destruct buf2 as [| b2 rest2]; [discriminate |].
  simpl in H1, H2. destruct (0x80 <=? x).
  - destruct (Go.PutUvarint rest1 (Z.shiftr x 7)) as [[r1' m1] |] eqn:E1;
      [| discriminate].
    destruct (Go.PutUvarint rest2 (Z.shiftr x 7)) as [[r2' m2] |] eqn:E2;
      [| discriminate].
    injection H1 as <- <-. injection H2 as <- <-.
    destruct (IH _ _ _ _ _ _ E1 E2) as [-> Heq].
    split; [reflexivity |]. simpl. now rewrite Heq.
  - injection H1 as <- <-. injection H2 as <- <-. now split.
Qed.

(** The hash step gives the same string on every buffer it does not
    overflow. *)
Lemma hashStr_buffer (msg1 msg2 : list Z) (nonce : NonceMessage) (secret : Z) h :
  Client.hashStr msg1 nonce secret = Some h ->
  (Go.MaxVarintLen64 <= length msg2)%nat ->
  Client.hashStr msg2 nonce secret = Some h.
Proof.
  unfold Client.hashStr, Go.PutVarint. intros H1 Hlen.
  destruct (PutVarint_fits msg2 (Go.add64 (Nonce nonce) secret) Hlen)
    as [[r2 n2] E2].
  unfold Go.PutVarint in E2. rewrite E2.
  destruct (Go.PutUvarint msg1 _) as [[r1 n1] |] eqn:E1; [| discriminate].
  destruct (PutUvarint_written _ _ _ _ _ _ _ E1 E2) as [-> Heq].
  now rewrite <- Heq.
Qed.

Lemma le_bytes_length (n : nat) (x : Z) : length (Go.md5.le_bytes n x) = n.
Proof. revert x. induction n as [| n IH]; intros x; simpl; [| rewrite IH]; reflexivity. Qed.

(** A checksum is [md5.Size] = 16 bytes. *)
Lemma Sum_length (data : list Z) : length (Go.md5.Sum data) = 16%nat.
Proof. unfold Go.md5.Sum. rewrite !length_app, !le_bytes_length. reflexivity. Qed.

Lemma EncodeToString_length (src : list Z) :
  String.length (Go.EncodeToString src) = (2 * length src)%nat.
Proof. induction src as [| v rest IH]; simpl; [| rewrite IH]; lia. Qed.

Lemma bytes_of_string_length (s : string) :
  length (Go.bytes_of_string s) = String.length s.
Proof.
  unfold Go.bytes_of_string. rewrite length_map.
  induction s as [| c s IH]; simpl; [| rewrite IH]; reflexivity.
Qed.

(** The client's second datagram is 43 bytes long. *)
Lemma sendmsg_length (msg : list Z) (nonce : NonceMessage) (secret : Z) h :
  Client.hashStr msg nonce secret = Some h ->
  length (Client.sendmsg {| Hash := h |}) = 43%nat.
Proof.
  unfold Client.hashStr, Client.sendmsg. intros Hh.
  destruct (Go.PutVarint msg _) as [[r n] |]; [| discriminate].
  cbv zeta in Hh. apply (inj Some) in Hh. subst h. unfold Hash.
  rewrite !length_app, bytes_of_string_length, EncodeToString_length, Sum_length.
  reflexivity.
Qed.

(** [Int63] draws from the 63-bit non-negative range. *)
Lemma Int63_range {S : Type} {src : Go.rand.Source S} (g : S) :
  0 <= fst (Go.rand.Int63 g) < 2 ^ 63.
Proof.
  unfold Go.rand.Int63. destruct (Go.rand.Uint64 g) as [u g']. cbn [fst].
  change Go.rand.rngMask with (Z.ones 63).
  rewrite Z.land_ones by lia. apply Z.mod_pos_bound. lia.
Qed.

(** ** The two servers and the client *)

Section Properties.
Context {S : Type} {src : Go.rand.Source S}.
Context {decH : Go.json.Decoder HashMessage}.
Context {decR : Go.json.Decoder FortuneReqMessage}.

Implicit Types (p : AuthServer.Process (S := S)).
Implicit Types (q : FortuneServer.Process (S := S)).
Implicit Types (c : rpc.Client (S := S)).
Implicit Types (msg : list Z) (cAddr : string).
Implicit Types (hash : HashMessage) (fortuneReq : FortuneReqMessage).

Lemma GetFortuneInfo_eq q clientAddr :
  FortuneServer.GetFortuneInfo q clientAddr
  = ({| FortuneServer.fortuneServerRPC :=
          {| FortuneServer.m :=
               <[clientAddr := fserverToken]>
                 (FortuneServer.m (FortuneServer.fortuneServerRPC q));
             FortuneServer.server :=
               FortuneServer.server (FortuneServer.fortuneServerRPC q) |};
        FortuneServer.globalRand :=
          snd (Go.rand.Int63 (Go.rand.Seed 110)) |},
     {| FortuneServer :=
          FortuneServer.server (FortuneServer.fortuneServerRPC q);
        FortuneNonce := fserverToken |},
     None).
Proof.
  unfold FortuneServer.GetFortuneInfo, fserverToken.
  destruct (Go.rand.Int63 (Go.rand.Seed 110)) as [n g]. reflexivity.
Qed.

(** Over a standing connection the hand-off always ends in a reply. *)
Lemma accepted_delivered p c cAddr :
  rpc.shutdown c = false ->
  accepted p c cAddr
  = (p,
     {| rpc.remote := fst (fst (FortuneServer.GetFortuneInfo (rpc.remote c) cAddr));
        rpc.shutdown := false |},
     WriteToUDP
       (SendFortuneInfo
          {| FortuneServer :=
               FortuneServer.server
                 (FortuneServer.fortuneServerRPC (rpc.remote c));
             FortuneNonce := fserverToken |}) cAddr).
Proof.
  intros Hup. unfold accepted, rpc.Call_GetFortuneInfo.
  rewrite Hup, GetFortuneInfo_eq. reflexivity.
Qed.

Lemma accepted_shutdown p c cAddr :
  rpc.shutdown c = true -> accepted p c cAddr = (p, c, NoReply).
Proof.
  intros Hdown. unfold accepted, rpc.Call_GetFortuneInfo.
  rewrite Hdown. reflexivity.
Qed.

(** A datagram that is not a hash: the probe branch. *)
Lemma handleRequest_probe p msg c secret cAddr :
  Go.json.Unmarshal (T := HashMessage) msg = None ->
  AuthServer.handleRequest p msg c secret cAddr
  = ({| AuthServer.records :=
          {| AuthServer.m :=
               <[cAddr := aserverToken]> (AuthServer.m (AuthServer.records p)) |};
        AuthServer.globalRand := snd (Go.rand.Int63 (Go.rand.Seed 222)) |},
     c,
     WriteToUDP (SendNonce {| Nonce := aserverToken |}) cAddr).
Proof.
  intros Hdec. unfold AuthServer.handleRequest, aserverToken.
  rewrite Hdec. destruct (Go.rand.Int63 (Go.rand.Seed 222)) as [n g].
  reflexivity.
Qed.

(** A hash from a known address: the comparison is against the string the
    client computes from the stored nonce and the secret. *)
Lemma handleRequest_hash p msg c secret cAddr hash validNonce h :
  Go.json.Unmarshal msg = Some hash ->
  AuthServer.m (AuthServer.records p) !! cAddr = Some validNonce ->
  Client.hashStr msg {| Nonce := validNonce |} secret = Some h ->
  AuthServer.handleRequest p msg c secret cAddr
  = if String.eqb h (Hash hash) then accepted p c cAddr
    else rejected p c cAddr.
Proof.
  intros Hdec Hrec Hh. unfold AuthServer.handleRequest, Client.hashStr in *.
  rewrite Hdec, Hrec. cbn [Nonce] in Hh.
  destruct (Go.PutVarint msg (Go.add64 validNonce secret)) as [[msg' n] |];
    [| discriminate].
  cbv zeta in Hh. apply (inj Some) in Hh. cbv zeta. rewrite Hh.
  destruct (String.eqb h (Hash hash)); reflexivity.
Qed.

(** A hash on a buffer too short for the varint: the panic. *)
Lemma handleRequest_panic p msg c secret cAddr hash validNonce :
  Go.json.Unmarshal msg = Some hash ->
  AuthServer.m (AuthServer.records p) !! cAddr = Some validNonce ->
  Go.PutVarint msg (Go.add64 validNonce secret) = None ->
  AuthServer.handleRequest p msg c secret cAddr = (p, c, Panic).
Proof.
  intros Hdec Hrec Hput. unfold AuthServer.handleRequest.
  rewrite Hdec, Hrec, Hput. reflexivity.
Qed.

(** *** The challenge hash *)

(** C1 — The client and the aserver compute the same challenge hash.  For
    every stored nonce and every secret the client's hash step succeeds on
    its 1024-byte buffer and yields a string [h]; the datagram carrying [h]
    is 43 bytes long; and on every received hash datagram of at least
    [MaxVarintLen64] bytes the aserver compares the supplied hash with that
    same [h]: a hash equal to [h] takes the hand-off branch, any other is
    answered "unexpected hash value". *)
Theorem client_hash_passes_verification
    p c (msgC msgS : list Z) (nonce secret : Z) cAddr hash :
  length msgC = 1024%nat ->
  AuthServer.m (AuthServer.records p) !! cAddr = Some nonce ->
  Go.json.Unmarshal msgS = Some hash ->
  (Go.MaxVarintLen64 <= length msgS)%nat ->
  exists h : string,
    Client.hashStr msgC {| Nonce := nonce |} secret = Some h
    /\ length (Client.sendmsg {| Hash := h |}) = 43%nat
    /\ (Hash hash = h ->
        AuthServer.handleRequest p msgS c secret cAddr = accepted p c cAddr)
    /\ (Hash hash <> h ->
        AuthServer.handleRequest p msgS c secret cAddr = rejected p c cAddr).
Proof.
  intros HlenC Hrec Hdec HlenS.
  assert (HC : is_Some (Client.hashStr msgC {| Nonce := nonce |} secret)).
  { unfold Client.hashStr.
    destruct (PutVarint_fits msgC (Go.add64 nonce secret)) as [[r n] E].
    - rewrite HlenC. unfold Go.MaxVarintLen64. lia.
    - cbn [Nonce]. rewrite E. eauto. }
  destruct HC as [h Hh]. exists h.
  pose proof (hashStr_buffer _ msgS _ _ _ Hh HlenS) as HS.
  pose proof (handleRequest_hash p msgS c secret cAddr hash nonce h Hdec Hrec HS)
    as Hrun.
  repeat split.
  - exact Hh.
  - exact (sendmsg_length _ _ _ _ Hh).
  - intros Heq. rewrite Hrun.
    now replace (String.eqb h (Hash hash)) with true
      by (symmetry; apply String.eqb_eq; congruence).
  - intros Hne. rewrite Hrun.
    now replace (String.eqb h (Hash hash)) with false
      by (symmetry; apply String.eqb_neq; congruence).
Qed.

(** *** The aserver *)

(** C5 — Every datagram that does not decode as a [HashMessage] restarts
    the sender's session, whatever the session table held: the handler
    stores a token of the 63-bit non-negative range under the sender's
    address over any earlier entry and replies with the [NonceMessage]
    carrying it.  But the token is not fresh: after any earlier probe, from
    this or another address, it is the very token that probe was answered
    with and left in the table. *)
Theorem probe_token_already_issued
    p (msg0 msg : list Z) c secret (cAddr0 cAddr : string) :
  Go.json.Unmarshal (T := HashMessage) msg0 = None ->
  Go.json.Unmarshal (T := HashMessage) msg = None ->
  let p1 := fst (fst (AuthServer.handleRequest p msg0 c secret cAddr0)) in
  exists (token : Z) (p' : AuthServer.Process (S := S)),
    snd (AuthServer.handleRequest p msg0 c secret cAddr0)
    = WriteToUDP (SendNonce {| Nonce := token |}) cAddr0
    /\ AuthServer.m (AuthServer.records p1) !! cAddr0 = Some token
    /\ 0 <= token < 2 ^ 63
    /\ AuthServer.handleRequest p1 msg c secret cAddr
       = (p', c, WriteToUDP (SendNonce {| Nonce := token |}) cAddr)
    /\ AuthServer.m (AuthServer.records p')
       = <[cAddr := token]> (AuthServer.m (AuthServer.records p1)).
Proof.
  intros Hdec0 Hdec p1. subst p1.
  rewrite (handleRequest_probe p msg0 c secret cAddr0 Hdec0). cbn [fst snd].
  exists aserverToken. eexists. split; [| split; [| split; [| split]]].
  - reflexivity.
  - cbn. apply lookup_insert_eq.
  - apply Int63_range.
  - apply handleRequest_probe, Hdec.
  - reflexivity.
Qed.

(** C7 — A [HashMessage] from an address without an entry in the session
    table is answered "unknown remote client address"; the table and the
    RPC client, with the fserver behind it, are as before: no hand-off
    call is made. *)
Theorem hash_from_unknown_address p msg c secret cAddr hash :
  Go.json.Unmarshal msg = Some hash ->
  AuthServer.m (AuthServer.records p) !! cAddr = None ->
  AuthServer.handleRequest p msg c secret cAddr
  = (p, c,
     WriteToUDP (SendErr {| Error := "unknown remote client address" |}) cAddr).
Proof.
  intros Hdec Hrec. unfold AuthServer.handleRequest.
  rewrite Hdec, Hrec. reflexivity.
Qed.

(** C10 — Handling a [HashMessage] writes nothing to the aserver: after
    every outcome (unknown address, mismatch, hand-off with or without a
    reply, and the panic on a short buffer) the process, and so the nonce
    stored for every address, is the one before. *)
Theorem hash_leaves_records p msg c secret cAddr hash :
  Go.json.Unmarshal msg = Some hash ->
  fst (fst (AuthServer.handleRequest p msg c secret cAddr)) = p.
Proof.
  intros Hdec. unfold AuthServer.handleRequest. rewrite Hdec.
  destruct (AuthServer.m (AuthServer.records p) !! cAddr) as [validNonce |];
    [| reflexivity].
  destruct (Go.PutVarint msg (Go.add64 validNonce secret)) as [[msg' n] |];
    [| reflexivity].
  cbv zeta.
  destruct (String.eqb _ (Hash hash)); [| reflexivity].
  fold (accepted p c cAddr).
  destruct (rpc.shutdown c) eqn:Hs.
  - now rewrite accepted_shutdown.
  - now rewrite accepted_delivered.
Qed.

(** *** The fserver *)

(** C8 — [GetFortuneInfo] stores a token of the 63-bit non-negative range
    under the client address in the fserver's own map over any earlier
    entry, keeps the configured UDP address, and returns a grant made of
    that address and the token just stored.  But the token is not fresh:
    after any earlier call, for this or another address, it is the very
    token that call stored and returned. *)
Theorem grant_token_already_issued q (clientAddr0 clientAddr : string) :
  let q1 := fst (fst (FortuneServer.GetFortuneInfo q clientAddr0)) in
  exists (token : Z) (q' : FortuneServer.Process (S := S)),
    FortuneNonce (snd (fst (FortuneServer.GetFortuneInfo q clientAddr0)))
    = token
    /\ FortuneServer.m (FortuneServer.fortuneServerRPC q1) !! clientAddr0
       = Some token
    /\ 0 <= token < 2 ^ 63
    /\ FortuneServer.GetFortuneInfo q1 clientAddr
       = (q',
          {| FortuneServer :=
               FortuneServer.server (FortuneServer.fortuneServerRPC q1);
             FortuneNonce := token |},
          None)
    /\ FortuneServer.m (FortuneServer.fortuneServerRPC q')
       = <[clientAddr := token]>
           (FortuneServer.m (FortuneServer.fortuneServerRPC q1))
    /\ FortuneServer.server (FortuneServer.fortuneServerRPC q')
       = FortuneServer.server (FortuneServer.fortuneServerRPC q).
Proof.
  intros q1. subst q1. rewrite (GetFortuneInfo_eq q clientAddr0). cbn [fst snd].
  exists fserverToken. eexists.
  split; [| split; [| split; [| split; [| split]]]].
  - reflexivity.
  - cbn. apply lookup_insert_eq.
  - apply Int63_range.
  - apply GetFortuneInfo_eq.
  - reflexivity.
  - reflexivity.
Qed.

(** C6 — For every datagram that decodes as a [FortuneReqMessage]: without
    an entry for the sender the reply is "unknown remote client address";
    with an entry that differs from the presented nonce it is "incorrect
    fortune nonce"; with an entry equal to the presented nonce it is the
    [FortuneMessage] carrying exactly the configured fortune string. *)
Theorem fortune_dispatch msg this fortuneString cAddr fortuneReq :
  Go.json.Unmarshal msg = Some fortuneReq ->
  (FortuneServer.m this !! cAddr = None ->
   FortuneServer.fortune msg this fortuneString cAddr
   = WriteToUDP (SendErr {| Error := "unknown remote client address" |}) cAddr)
  /\ (forall validNonce : Z,
        FortuneServer.m this !! cAddr = Some validNonce ->
        ReqFortuneNonce fortuneReq <> validNonce ->
        FortuneServer.fortune msg this fortuneString cAddr
        = WriteToUDP (SendErr {| Error := "incorrect fortune nonce" |}) cAddr)
  /\ (FortuneServer.m this !! cAddr = Some (ReqFortuneNonce fortuneReq) ->
      FortuneServer.fortune msg this fortuneString cAddr
      = WriteToUDP (SendFortune {| Fortune := fortuneString |}) cAddr).
Proof.
  intros Hdec. unfold FortuneServer.fortune. rewrite Hdec.
  split; [| split].
  - intros ->. reflexivity.
  - intros validNonce -> Hne.
    destruct (Z.eqb_spec (ReqFortuneNonce fortuneReq) validNonce);
      [contradiction | reflexivity].
  - intros ->. now rewrite Z.eqb_refl.
Qed.

(** C9 — [GetFortuneInfo] returns a nil error for every client address,
    and so, over a connection that is not shut down, no datagram makes
    [handleRequest] return without a reply. *)
Theorem GetFortuneInfo_never_fails q clientAddr p msg c secret cAddr :
  rpc.shutdown c = false ->
  snd (FortuneServer.GetFortuneInfo q clientAddr) = None
  /\ snd (AuthServer.handleRequest p msg c secret cAddr) <> NoReply.
Proof.
  intros Hup. split; [now rewrite GetFortuneInfo_eq |].
  destruct (Go.json.Unmarshal (T := HashMessage) msg) as [hash |] eqn:Hdec.
  - unfold AuthServer.handleRequest. rewrite Hdec.
    destruct (AuthServer.m (AuthServer.records p) !! cAddr) as [validNonce |];
      [| discriminate].
    destruct (Go.PutVarint msg (Go.add64 validNonce secret)) as [[msg' n] |];
      [| discriminate].
    cbv zeta. destruct (String.eqb _ (Hash hash)); [| discriminate].
    fold (accepted p c cAddr). now rewrite accepted_delivered.
  - now rewrite handleRequest_probe.
Qed.

(** *** Where the programs part from their description *)

(** C2 — Tokens repeat.  Any two probe handlings of the aserver, in
    whatever states and from whatever addresses, send the same nonce, and
    any two grants of the fserver carry the same fortune nonce: both
    handlers seed the generator with a constant before each draw. *)
Theorem tokens_repeat
    p1 p2 (msg1 msg2 : list Z) c1 c2 (secret1 secret2 : Z)
    (cAddr1 cAddr2 : string) q1 q2 (clientAddr1 clientAddr2 : string) :
  Go.json.Unmarshal (T := HashMessage) msg1 = None ->
  Go.json.Unmarshal (T := HashMessage) msg2 = None ->
  (exists token : Z,
      snd (AuthServer.handleRequest p1 msg1 c1 secret1 cAddr1)
      = WriteToUDP (SendNonce {| Nonce := token |}) cAddr1
      /\ snd (AuthServer.handleRequest p2 msg2 c2 secret2 cAddr2)
         = WriteToUDP (SendNonce {| Nonce := token |}) cAddr2)
  /\ FortuneNonce (snd (fst (FortuneServer.GetFortuneInfo q1 clientAddr1)))
     = FortuneNonce (snd (fst (FortuneServer.GetFortuneInfo q2 clientAddr2))).
Proof.
  intros Hdec1 Hdec2. split.
  - exists aserverToken. now rewrite !handleRequest_probe.
  - now rewrite !GetFortuneInfo_eq.
Qed.

(** C3 — A second probe does not invalidate the first challenge.  After
    two probes from one address, a hash computed by the client against the
    nonce sent in reply to the first probe still takes the hand-off
    branch, whose outcome is never "unexpected hash value". *)
Theorem stale_hash_still_accepted
    p c (msg1 msg2 msgC msgH : list Z) (secret : Z) cAddr
    (nonce1 : NonceMessage) hash :
  Go.json.Unmarshal (T := HashMessage) msg1 = None ->
  Go.json.Unmarshal (T := HashMessage) msg2 = None ->
  snd (AuthServer.handleRequest p msg1 c secret cAddr)
  = WriteToUDP (SendNonce nonce1) cAddr ->
  Client.hashStr msgC nonce1 secret = Some (Hash hash) ->
  Go.json.Unmarshal msgH = Some hash ->
  (Go.MaxVarintLen64 <= length msgH)%nat ->
  let '(p1, c1, _) := AuthServer.handleRequest p msg1 c secret cAddr in
  let '(p2, c2, _) := AuthServer.handleRequest p1 msg2 c1 secret cAddr in
  AuthServer.handleRequest p2 msgH c2 secret cAddr = accepted p2 c2 cAddr
  /\ snd (accepted p2 c2 cAddr)
     <> WriteToUDP (SendErr {| Error := "unexpected hash value" |}) cAddr.
Proof.
  intros Hdec1 Hdec2 Hfirst Hh HdecH Hlen.
  rewrite handleRequest_probe in Hfirst by exact Hdec1.
  cbn [snd] in Hfirst. injection Hfirst as <-.
  rewrite !handleRequest_probe by assumption.
  split.
  - erewrite handleRequest_hash; [| exact HdecH | cbn; apply lookup_insert_eq
                                  | exact (hashStr_buffer _ _ _ _ _ Hh Hlen)].
    now rewrite String.eqb_refl.
  - destruct (rpc.shutdown c) eqn:Hs.
    + now rewrite accepted_shutdown.
    + now rewrite accepted_delivered.
Qed.

(** C4 — A payload that decodes as no request.  The fserver answers a
    datagram that is not a [FortuneReqMessage] with "could not interpret
    message"; the aserver takes a datagram that is not a [HashMessage] for
    a probe and answers with a [NonceMessage]. *)
Theorem undecodable_payload
    (msgF msgA : list Z) this fortuneString p c (secret : Z) cAddr :
  Go.json.Unmarshal (T := FortuneReqMessage) msgF = None ->
  Go.json.Unmarshal (T := HashMessage) msgA = None ->
  FortuneServer.fortune msgF this fortuneString cAddr
  = WriteToUDP (SendErr {| Error := "could not interpret message" |}) cAddr
  /\ snd (AuthServer.handleRequest p msgA c secret cAddr)
     = WriteToUDP (SendNonce {| Nonce := aserverToken |}) cAddr.
Proof.
  intros HdecF HdecA. split.
  - unfold FortuneServer.fortune. now rewrite HdecF.
  - now rewrite handleRequest_probe.
Qed.

End Properties.

(** ** The properties at work on concrete datagrams *)

Ltac run := vm_compute; first [reflexivity | discriminate | lia].

(** The client's hash for the nonce of its first probe is verified. *)
Lemma client_hash_passes_verification_witness :
  (length (repeat 0 1024) = 1024%nat
   /\ AuthServer.m (AuthServer.records Demo.aserver1) !! Demo.addr
      = Some Demo.nonce1
   /\ Demo.decodeHash Demo.hashDatagram1 = Some Demo.hashMsg1
   /\ (Go.MaxVarintLen64 <= length Demo.hashDatagram1)%nat)
  /\ exists h : string,
      Client.hashStr (repeat 0 1024) {| Nonce := Demo.nonce1 |} Demo.secret
      = Some h
      /\ length (Client.sendmsg {| Hash := h |}) = 43%nat
      /\ (Hash Demo.hashMsg1 = h ->
          Demo.handleRequest Demo.aserver1 Demo.hashDatagram1 Demo.link0
            Demo.secret Demo.addr
          = accepted (src := Demo.lcg) Demo.aserver1 Demo.link0 Demo.addr)
      /\ (Hash Demo.hashMsg1 <> h ->
          Demo.handleRequest Demo.aserver1 Demo.hashDatagram1 Demo.link0
            Demo.secret Demo.addr
          = rejected Demo.aserver1 Demo.link0 Demo.addr).
Proof.
  split; [repeat split; run |].
  apply (client_hash_passes_verification (src := Demo.lcg)
           (decH := Demo.decodeHash)); run.
Defined.

(** The client probes twice: the second nonce is the first. *)
Lemma probe_token_already_issued_witness :
  Demo.decodeHash Client.probe = None
  /\ exists (token : Z) (p' : AuthServer.Process (S := Z)),
      snd (Demo.handleRequest Demo.aserver0 Client.probe Demo.link0 Demo.secret
             Demo.addr)
      = WriteToUDP (SendNonce {| Nonce := token |}) Demo.addr
      /\ AuthServer.m (AuthServer.records Demo.aserver1) !! Demo.addr
         = Some token
      /\ 0 <= token < 2 ^ 63
      /\ Demo.handleRequest Demo.aserver1 Client.probe Demo.link0 Demo.secret
           Demo.addr
         = (p', Demo.link0, WriteToUDP (SendNonce {| Nonce := token |}) Demo.addr)
      /\ AuthServer.m (AuthServer.records p')
         = <[Demo.addr := token]>
             (AuthServer.m (AuthServer.records Demo.aserver1)).
Proof.
  split; [run |].
  apply (probe_token_already_issued (src := Demo.lcg) (decH := Demo.decodeHash)
           Demo.aserver0 Client.probe Client.probe Demo.link0 Demo.secret
           Demo.addr Demo.addr); run.
Defined.

Lemma hash_from_unknown_address_witness :
  (Demo.decodeHash Demo.hashDatagram1 = Some Demo.hashMsg1
   /\ AuthServer.m (AuthServer.records Demo.aserver0) !! Demo.addr = None)
  /\ Demo.handleRequest Demo.aserver0 Demo.hashDatagram1 Demo.link0 Demo.secret
       Demo.addr
     = (Demo.aserver0, Demo.link0,
        WriteToUDP (SendErr {| Error := "unknown remote client address" |})
          Demo.addr).
Proof.
  split; [split; run |].
  apply (hash_from_unknown_address (src := Demo.lcg) (decH := Demo.decodeHash)
           Demo.aserver0 Demo.hashDatagram1 Demo.link0 Demo.secret Demo.addr
           Demo.hashMsg1); run.
Defined.

Lemma hash_leaves_records_witness :
  Demo.decodeHash Demo.hashDatagram1 = Some Demo.hashMsg1
  /\ fst (fst (Demo.handleRequest Demo.aserver1 Demo.hashDatagram1 Demo.link0
                 Demo.secret Demo.addr))
     = Demo.aserver1.
Proof.
  split; [run |].
  apply (hash_leaves_records (src := Demo.lcg) (decH := Demo.decodeHash)
           Demo.aserver1 Demo.hashDatagram1 Demo.link0 Demo.secret Demo.addr
           Demo.hashMsg1); run.
Defined.

Lemma fortune_dispatch_witness :
  Demo.decodeFortuneReq Demo.fortuneReq7 = Some {| ReqFortuneNonce := 7 |}
  /\ Demo.fortune Demo.fortuneReq7 (Demo.receiver ∅) "seize the day" Demo.addr
     = WriteToUDP (SendErr {| Error := "unknown remote client address" |})
         Demo.addr
  /\ Demo.fortune Demo.fortuneReq7 (Demo.receiver {[ Demo.addr := 8 ]})
       "seize the day" Demo.addr
     = WriteToUDP (SendErr {| Error := "incorrect fortune nonce" |}) Demo.addr
  /\ Demo.fortune Demo.fortuneReq7 (Demo.receiver {[ Demo.addr := 7 ]})
       "seize the day" Demo.addr
     = WriteToUDP (SendFortune {| Fortune := "seize the day" |}) Demo.addr.
Proof.
  assert (Hdec : Demo.decodeFortuneReq Demo.fortuneReq7
                 = Some {| ReqFortuneNonce := 7 |}) by run.
  split; [exact Hdec |].
  split; [| split].
  - apply (fortune_dispatch (decR := Demo.decodeFortuneReq) _ (Demo.receiver ∅)
             "seize the day" Demo.addr _ Hdec). run.
  - apply (proj1 (proj2 (fortune_dispatch (decR := Demo.decodeFortuneReq) _
             (Demo.receiver {[ Demo.addr := 8 ]}) "seize the day" Demo.addr _
             Hdec)) 8); run.
  - apply (fortune_dispatch (decR := Demo.decodeFortuneReq) _
             (Demo.receiver {[ Demo.addr := 7 ]}) "seize the day" Demo.addr _
             Hdec). run.
Defined.

Lemma GetFortuneInfo_never_fails_witness :
  rpc.shutdown Demo.link0 = false
  /\ snd (Demo.GetFortuneInfo Demo.fserver0 Demo.addr) = None
  /\ snd (Demo.handleRequest Demo.aserver1 Demo.hashDatagram1 Demo.link0
            Demo.secret Demo.addr)
     <> NoReply.
Proof.
  split; [run |].
  apply (GetFortuneInfo_never_fails (src := Demo.lcg) (decH := Demo.decodeHash)).
  run.
Defined.

(** Two clients probe one after the other and are sent the same nonce. *)
Lemma tokens_repeat_witness :
  (Demo.decodeHash Client.probe = None
   /\ Demo.decodeHash [0x68; 0x69] = None)
  /\ (exists token : Z,
         snd (Demo.handleRequest Demo.aserver0 Client.probe Demo.link0
                Demo.secret "127.0.0.1:2020")
         = WriteToUDP (SendNonce {| Nonce := token |}) "127.0.0.1:2020"
         /\ snd (Demo.handleRequest Demo.aserver1 [0x68; 0x69] Demo.link0
                   Demo.secret "10.0.0.7:4040")
            = WriteToUDP (SendNonce {| Nonce := token |}) "10.0.0.7:4040")
     /\ FortuneNonce
          (snd (fst (Demo.GetFortuneInfo Demo.fserver0 "127.0.0.1:2020")))
        = FortuneNonce
            (snd (fst (Demo.GetFortuneInfo
                         (fst (fst (Demo.GetFortuneInfo Demo.fserver0
                                      "127.0.0.1:2020")))
                         "10.0.0.7:4040"))).
Proof.
  split; [split; run |].
  apply (tokens_repeat (src := Demo.lcg) (decH := Demo.decodeHash)); run.
Defined.

(** Probe, probe again, then answer the first challenge: the hand-off. *)
Lemma stale_hash_still_accepted_witness :
  let '(p1, c1, o1) :=
    Demo.handleRequest Demo.aserver0 Client.probe Demo.link0 Demo.secret
      Demo.addr in
  let '(p2, c2, _) :=
    Demo.handleRequest p1 Client.probe c1 Demo.secret Demo.addr in
  o1 = WriteToUDP (SendNonce {| Nonce := Demo.nonce1 |}) Demo.addr
  /\ Client.hashStr (repeat 0 1024) {| Nonce := Demo.nonce1 |} Demo.secret
     = Some (Hash Demo.hashMsg1)
  /\ Demo.handleRequest p2 Demo.hashDatagram1 c2 Demo.secret Demo.addr
     = accepted (src := Demo.lcg) p2 c2 Demo.addr
  /\ snd (accepted (src := Demo.lcg) p2 c2 Demo.addr)
     <> WriteToUDP (SendErr {| Error := "unexpected hash value" |}) Demo.addr.
Proof.
  pose proof (stale_hash_still_accepted (src := Demo.lcg)
                (decH := Demo.decodeHash) Demo.aserver0 Demo.link0
                Client.probe Client.probe (repeat 0 1024) Demo.hashDatagram1
                Demo.secret Demo.addr {| Nonce := Demo.nonce1 |} Demo.hashMsg1)
    as Hrun.
  destruct (AuthServer.handleRequest Demo.aserver0 Client.probe Demo.link0
              Demo.secret Demo.addr) as [[p1 c1] o1] eqn:E1.
  unfold Demo.handleRequest. rewrite E1.
  destruct (AuthServer.handleRequest p1 Client.probe c1 Demo.secret Demo.addr)
    as [[p2 c2] o2] eqn:E2.
  assert (Ho1 : o1 = WriteToUDP (SendNonce {| Nonce := Demo.nonce1 |}) Demo.addr).
  { vm_compute in E1. injection E1 as _ _ <-. reflexivity. }
  split; [exact Ho1 |]. split; [run |].
  apply Hrun; [run | run | exact Ho1 | run | run | run].
Defined.

Lemma undecodable_payload_witness :
  (Demo.decodeFortuneReq Client.probe = None
   /\ Demo.decodeHash Client.probe = None)
  /\ Demo.fortune Client.probe (Demo.receiver ∅) "seize the day" Demo.addr
     = WriteToUDP (SendErr {| Error := "could not interpret message" |})
         Demo.addr
  /\ snd (Demo.handleRequest Demo.aserver0 Client.probe Demo.link0 Demo.secret
            Demo.addr)
     = WriteToUDP (SendNonce {| Nonce := aserverToken (src := Demo.lcg) |})
         Demo.addr.
Proof.
  split; [split; run |].
  apply (undecodable_payload (src := Demo.lcg) (decH := Demo.decodeHash)
           (decR := Demo.decodeFortuneReq)); run.
Defined.

(** The client's own first datagram decodes as no message, and the aserver
    does not answer it with "could not interpret message". *)
Lemma aserver_probe_not_an_error :
  Demo.decodeHash Client.probe = None
  /\ snd (Demo.handleRequest Demo.aserver0 Client.probe Demo.link0 Demo.secret
            Demo.addr)
     = WriteToUDP (SendNonce {| Nonce := Demo.nonce1 |}) Demo.addr
  /\ snd (Demo.handleRequest Demo.aserver0 Client.probe Demo.link0 Demo.secret
            Demo.addr)
     <> WriteToUDP (SendErr {| Error := "could not interpret message" |})
          Demo.addr.
Proof. repeat split; run. Qed.

(** ** More on the varint and the hash string *)

Lemma lxor_all_ones (u : Z) :
  0 <= u < 2 ^ 64 -> Z.lxor u (2 ^ 64 - 1) = 2 ^ 64 - 1 - u.
Proof.
  intros Hu. change (2 ^ 64 - 1) with (Z.ones 64).
  assert (Hlog : Z.log2 u < 64).
  { destruct (Z.eq_dec u 0) as [-> | Hnz]; [reflexivity |].
    apply Z.log2_lt_pow2; lia. }
  rewrite <- Z.ldiff_ones_l_low by lia.
  rewrite <- Z.sub_nocarry_ldiff; [reflexivity |].
  apply Z.ldiff_ones_r_low; lia.
Qed.

(** The zig-zag value of an [int64]: the non-negative ones on the even
    numbers, the negative ones on the odd numbers. *)
Lemma zigzag_int64 (x : Z) :
  - 2 ^ 63 <= x < 2 ^ 63 ->
  Go.zigzag x = if x <? 0 then - 2 * x - 1 else 2 * x.
Proof.
  intros Hx. unfold Go.zigzag, Go.uint64.
  rewrite Z.shiftl_mul_pow2 by lia. change (2 ^ 1) with 2.
  destruct (Z.ltb_spec x 0) as [Hneg | Hpos].
  - replace (x mod 2 ^ 64) with (x + 2 ^ 64)
      by (apply Z.mod_unique with (-1); lia).
    replace (((x + 2 ^ 64) * 2) mod 2 ^ 64) with (2 * x + 2 ^ 64)
      by (apply Z.mod_unique with 1; lia).
    rewrite lxor_all_ones by lia. lia.
  - rewrite (Z.mod_small x) by lia. rewrite Z.mod_small by lia. lia.
Qed.

Lemma zigzag_inj (x y : Z) :
  - 2 ^ 63 <= x < 2 ^ 63 -> - 2 ^ 63 <= y < 2 ^ 63 ->
  Go.zigzag x = Go.zigzag y -> x = y.
Proof.
  intros Hx Hy. rewrite !zigzag_int64 by assumption.
  destruct (Z.ltb_spec x 0), (Z.ltb_spec y 0); lia.
Qed.

Lemma add64_range (a b : Z) : - 2 ^ 63 <= Go.add64 a b < 2 ^ 63.
Proof.
  unfold Go.add64, Go.int64.
  pose proof (Z.mod_pos_bound (a + b + 2 ^ 63) (2 ^ 64)). lia.
Qed.

(** Setting the continuation bit of a byte. *)
Lemma lor_0x80 (a : Z) : 0 <= a < 256 -> Z.lor a 0x80 = a mod 128 + 128.
Proof.
  intros Ha.
  assert (Hall : forallb (fun a => Z.lor a 0x80 =? a mod 128 + 128)
                   (map Z.of_nat (seq 0 256)) = true) by (vm_compute; reflexivity).
  rewrite forallb_forall in Hall.
  apply Z.eqb_eq, Hall.
  apply in_map_iff. exists (Z.to_nat a). split; [lia |].
  apply in_seq. lia.
Qed.

Lemma uint8_range (x : Z) : 0 <= Go.uint8 x < 256.
Proof. unfold Go.uint8. apply Z.mod_pos_bound. lia. Qed.

(** [PutUvarint] panics exactly on a buffer too short for the value: the
    empty one, and one of [k] bytes when the value reaches [2 ^ (7 k)]. *)
Lemma PutUvarint_None_iff (buf : list Z) :
  forall x : Z, 0 <= x ->
    Go.PutUvarint buf x = None
    <-> buf = [] \/ 2 ^ (7 * Z.of_nat (length buf)) <= x.
Proof.
  induction buf as [| b rest IH]; intros x Hx; [simpl; tauto |].
  cbn [Go.PutUvarint length].
  assert (Hpow : 2 ^ (7 * Z.of_nat (S (length rest)))
                 = 128 * 2 ^ (7 * Z.of_nat (length rest))).
  { replace (7 * Z.of_nat (S (length rest)))
      with (7 + 7 * Z.of_nat (length rest)) by lia.
    rewrite Z.pow_add_r by lia. reflexivity. }
  rewrite Hpow.
  assert (Hp : 0 < 2 ^ (7 * Z.of_nat (length rest)))
    by (apply Z.pow_pos_nonneg; lia).
  destruct (Z.leb_spec 0x80 x) as [Hbig | Hsmall].
  - specialize (IH (Z.shiftr x 7)).
    rewrite Z.shiftr_div_pow2 in IH by lia. change (2 ^ 7) with 128 in IH.
    assert (Hq : 0 <= x / 128) by (apply Z.div_pos; lia).
    specialize (IH Hq).
    rewrite Z.shiftr_div_pow2 by lia. change (2 ^ 7) with 128.
    destruct (Go.PutUvarint rest (x / 128)) as [[rest' n] |].
    + split; [discriminate |]. intros [Hnil | Hge]; [discriminate |].
      assert (Hno : ~ (rest = [] \/ 2 ^ (7 * Z.of_nat (length rest)) <= x / 128))
        by (intros H; apply IH in H; discriminate).
      exfalso. apply Hno. right. apply Z.div_le_lower_bound; lia.
    + split; [| reflexivity]. intros _. right.
      destruct (proj1 IH eq_refl) as [-> | Hge]; [simpl; lia |].
      pose proof (Z.mul_div_le x 128). nia.
  - split; [discriminate |]. intros [Hnil | Hge]; [discriminate | lia].
Qed.

(** What [PutUvarint] returns on success: between 1 and [length buf] bytes
    written, in a slice of the same length. *)
Lemma PutUvarint_count (buf : list Z) :
  forall (x : Z) r n,
    Go.PutUvarint buf x = Some (r, n) ->
    (1 <= n <= length buf)%nat /\ length r = length buf.
Proof.
  induction buf as [| b rest IH]; intros x r n H; [discriminate |].
  simpl in H. destruct (0x80 <=? x).
  - destruct (Go.PutUvarint rest (Z.shiftr x 7)) as [[rest' m] |] eqn:E;
      [| discriminate].
    apply (inj Some) in H. injection H as <- <-.
    destruct (IH _ _ _ E) as [Hm Hl]. simpl. lia.
  - apply (inj Some) in H. injection H as <- <-. simpl. lia.
Qed.

(** A value below [2 ^ (7 k)] takes at most [k] bytes. *)
Lemma PutUvarint_count_le (k : nat) :
  forall (buf : list Z) (x : Z) r n,
    (1 <= k)%nat -> 0 <= x < 2 ^ (7 * Z.of_nat k) ->
    Go.PutUvarint buf x = Some (r, n) -> (n <= k)%nat.
Proof.
  induction k as [| k IH]; intros buf x r n Hk Hx H; [lia |].
  destruct buf as [| b rest]; [discriminate |].
  simpl in H. destruct (Z.leb_spec 0x80 x) as [Hbig | Hsmall].
  - destruct (Go.PutUvarint rest (Z.shiftr x 7)) as [[rest' m] |] eqn:E;
      [| discriminate].
    apply (inj Some) in H. injection H as <- <-.
    assert (Hk1 : (1 <= k)%nat).
    { destruct k; [| lia]. simpl in Hx. lia. }
    enough (m <= k)%nat by lia.
    apply (IH rest (Z.shiftr x 7) rest' m); [exact Hk1 | | exact E].
    rewrite Z.shiftr_div_pow2 by lia. split; [apply Z.div_pos; lia |].
    apply Z.div_lt_upper_bound; [lia |].
    rewrite <- Z.pow_add_r by lia.
    replace (7 + 7 * Z.of_nat k) with (7 * Z.of_nat (S k)) by lia. lia.
  - apply (inj Some) in H. injection H as <- <-. lia.
Qed.

(** The bytes written determine the value. *)
Lemma PutUvarint_inj (buf1 : list Z) :
  forall (buf2 : list Z) (x y : Z) r1 n1 r2 n2,
    0 <= x -> 0 <= y ->
    Go.PutUvarint buf1 x = Some (r1, n1) ->
    Go.PutUvarint buf2 y = Some (r2, n2) ->
    firstn n1 r1 = firstn n2 r2 -> x = y.
Proof.
  induction buf1 as [| b1 rest1 IH]; intros buf2 x y r1 n1 r2 n2 Hx Hy H1 H2 Heq;
    [discriminate |].
  destruct buf2 as [| b2 rest2]; [discriminate |].
  simpl in H1, H2.
  pose proof (uint8_range x) as Hbx. pose proof (uint8_range y) as Hby.
  pose proof (lor_0x80 _ Hbx) as Hlx. pose proof (lor_0x80 _ Hby) as Hly.
  unfold Go.uint8 in *. change (2 ^ 8) with 256 in *.
  assert (Hd : (128 | 256)) by (exists 2; reflexivity).
  rewrite (Z.mod_mod_divide x 256 128) in Hlx by exact Hd.
  rewrite (Z.mod_mod_divide y 256 128) in Hly by exact Hd.
  pose proof (Z.mod_pos_bound x 128 ltac:(lia)) as Hrx.
  pose proof (Z.mod_pos_bound y 128 ltac:(lia)) as Hry.
  destruct (Z.leb_spec 0x80 x) as [Hbigx | Hsmallx];
    destruct (Z.leb_spec 0x80 y) as [Hbigy | Hsmally].
  - destruct (Go.PutUvarint rest1 (Z.shiftr x 7)) as [[r1' m1] |] eqn:E1;
      [| discriminate].
    destruct (Go.PutUvarint rest2 (Z.shiftr y 7)) as [[r2' m2] |] eqn:E2;
      [| discriminate].
    apply (inj Some) in H1, H2. injection H1 as <- <-. injection H2 as <- <-.
    cbn [firstn] in Heq. injection Heq as Hhead Htail.
    assert (Hq : Z.shiftr x 7 = Z.shiftr y 7).
    { apply (IH rest2 _ _ r1' m1 r2' m2); try assumption;
        apply Z.shiftr_nonneg; lia. }
    rewrite !Z.shiftr_div_pow2 in Hq by lia. change (2 ^ 7) with 128 in Hq.
    rewrite (Z.div_mod x 128), (Z.div_mod y 128) by lia. lia.
  - destruct (Go.PutUvarint rest1 (Z.shiftr x 7)) as [[r1' m1] |];
      [| discriminate].
    apply (inj Some) in H1, H2. injection H1 as <- <-. injection H2 as <- <-.
    cbn [firstn] in Heq. injection Heq as Hhead _.
    rewrite (Z.mod_small y) in Hhead by lia. lia.
  - destruct (Go.PutUvarint rest2 (Z.shiftr y 7)) as [[r2' m2] |];
      [| discriminate].
    apply (inj Some) in H1, H2. injection H1 as <- <-. injection H2 as <- <-.
    cbn [firstn] in Heq. injection Heq as Hhead _.
    rewrite (Z.mod_small x) in Hhead by lia. lia.
  - apply (inj Some) in H1, H2. injection H1 as <- <-. injection H2 as <- <-.
    cbn [firstn] in Heq. injection Heq as Hhead.
    rewrite (Z.mod_small x), (Z.mod_small y) in Hhead by lia. exact Hhead.
Qed.

(** Every digit [hexdigit] returns is one of the sixteen of [hextable]. *)
Lemma hexdigit_lower (n : Z) : is_lower_hex (Go.hexdigit n) = true.
Proof.
  unfold Go.hexdigit. destruct (Z.to_nat n) as [| k]; [reflexivity |].
  do 15 (destruct k as [| k]; [reflexivity |]). reflexivity.
Qed.

Lemma EncodeToString_lower (src : list Z) :
  forallb is_lower_hex (list_ascii_of_string (Go.EncodeToString src)) = true.
Proof.
  induction src as [| v rest IH]; [reflexivity |].
  cbn [Go.EncodeToString list_ascii_of_string forallb].
  now rewrite !hexdigit_lower, IH.
Qed.

(** ** The handlers, branch by branch *)

Section Handlers.
Context {S : Type} {src : Go.rand.Source S}.
Context {decH : Go.json.Decoder HashMessage}.
Context {decR : Go.json.Decoder FortuneReqMessage}.

Implicit Types (p : AuthServer.Process (S := S)).
Implicit Types (q : FortuneServer.Process (S := S)).
Implicit Types (c : rpc.Client (S := S)).
Implicit Types (msg : list Z) (cAddr : string).
Implicit Types (hash : HashMessage) (fortuneReq : FortuneReqMessage).

(** The five ways through [handleRequest]. *)
Lemma handleRequest_cases p msg c secret cAddr :
  (Go.json.Unmarshal (T := HashMessage) msg = None
   /\ AuthServer.handleRequest p msg c secret cAddr
      = ({| AuthServer.records :=
              {| AuthServer.m :=
                   <[cAddr := aserverToken]> (AuthServer.m (AuthServer.records p)) |};
            AuthServer.globalRand := snd (Go.rand.Int63 (Go.rand.Seed 222)) |},
         c, WriteToUDP (SendNonce {| Nonce := aserverToken |}) cAddr))
  \/ (exists hash,
        Go.json.Unmarshal msg = Some hash
        /\ AuthServer.m (AuthServer.records p) !! cAddr = None
        /\ AuthServer.handleRequest p msg c secret cAddr
           = (p, c,
              WriteToUDP
                (SendErr {| Error := "unknown remote client address" |}) cAddr))
  \/ (exists hash validNonce,
        Go.json.Unmarshal msg = Some hash
        /\ AuthServer.m (AuthServer.records p) !! cAddr = Some validNonce
        /\ Go.PutVarint msg (Go.add64 validNonce secret) = None
        /\ AuthServer.handleRequest p msg c secret cAddr = (p, c, Panic))
  \/ (exists hash validNonce,
        Go.json.Unmarshal msg = Some hash
        /\ AuthServer.m (AuthServer.records p) !! cAddr = Some validNonce
        /\ Client.hashStr msg {| Nonce := validNonce |} secret = Some (Hash hash)
        /\ AuthServer.handleRequest p msg c secret cAddr = accepted p c cAddr)
  \/ (exists hash validNonce h,
        Go.json.Unmarshal msg = Some hash
        /\ AuthServer.m (AuthServer.records p) !! cAddr = Some validNonce
        /\ Client.hashStr msg {| Nonce := validNonce |} secret = Some h
        /\ h <> Hash hash
        /\ AuthServer.handleRequest p msg c secret cAddr = rejected p c cAddr).
Proof.
  destruct (Go.json.Unmarshal (T := HashMessage) msg) as [hash |] eqn:Hdec.
  - right.
    destruct (AuthServer.m (AuthServer.records p) !! cAddr) as [validNonce |]
      eqn:Hrec.
    + right.
      destruct (Client.hashStr msg {| Nonce := validNonce |} secret) as [h |]
        eqn:Hh.
      * right. pose proof (handleRequest_hash p msg c secret cAddr hash
                             validNonce h Hdec Hrec Hh) as Hrun.
        destruct (String.eqb_spec h (Hash hash)) as [Heq | Hne].
        -- left. exists hash, validNonce. subst h. auto.
        -- right. exists hash, validNonce, h. auto.
      * left. exists hash, validNonce.
        assert (Hput : Go.PutVarint msg (Go.add64 validNonce secret) = None).
        { unfold Client.hashStr in Hh. cbn [Nonce] in Hh.
          destruct (Go.PutVarint msg (Go.add64 validNonce secret)) as [[r n] |];
            [discriminate | reflexivity]. }
        repeat split; try assumption.
        now apply (handleRequest_panic p msg c secret cAddr hash validNonce).
    + left. exists hash. repeat split; try assumption.
      unfold AuthServer.handleRequest. now rewrite Hdec, Hrec.
  - left. split; [reflexivity |]. now apply handleRequest_probe.
Qed.

(** The hand-off, according to the connection. *)
Lemma accepted_cases p c cAddr :
  (rpc.shutdown c = true /\ accepted p c cAddr = (p, c, NoReply))
  \/ (rpc.shutdown c = false
      /\ accepted p c cAddr
         = (p,
            {| rpc.remote :=
                 fst (fst (FortuneServer.GetFortuneInfo (rpc.remote c) cAddr));
               rpc.shutdown := false |},
            WriteToUDP
              (SendFortuneInfo
                 {| FortuneServer :=
                      FortuneServer.server
                        (FortuneServer.fortuneServerRPC (rpc.remote c));
                    FortuneNonce := fserverToken |}) cAddr)).
Proof.
  destruct (rpc.shutdown c) eqn:Hs.
  - left. split; [reflexivity |]. now apply accepted_shutdown.
  - right. split; [reflexivity |]. now apply accepted_delivered.
Qed.


(** X1 — A [FortuneInfoMessage] goes out only in answer to a hash that
    matches: the datagram decoded as a hash, the sender had a nonce stored,
    and the hash equals the one recomputed from that nonce and the secret.
    The message goes to the sender, and the fortune nonce in it is the one
    the fserver now holds for the sender's address. *)
Theorem FortuneInfo_only_after_verification
    p msg c secret cAddr p' c' (f : FortuneInfoMessage) (to : string) :
  AuthServer.handleRequest p msg c secret cAddr
  = (p', c', WriteToUDP (SendFortuneInfo f) to) ->
  exists hash validNonce,
    Go.json.Unmarshal msg = Some hash
    /\ AuthServer.m (AuthServer.records p) !! cAddr = Some validNonce
    /\ Client.hashStr msg {| Nonce := validNonce |} secret = Some (Hash hash)
    /\ to = cAddr
    /\ FortuneServer.m (FortuneServer.fortuneServerRPC (rpc.remote c')) !! cAddr
       = Some (FortuneNonce f).
Proof.
  intros Hrun.
  destruct (handleRequest_cases p msg c secret cAddr)
    as [[_ H] | [(hash & _ & _ & H) | [(hash & v & _ & _ & _ & H)
       | [(hash & v & Hdec & Hrec & Hh & H) | (hash & v & h & _ & _ & _ & _ & H)]]]];
    rewrite H in Hrun; try discriminate.
  exists hash, v. repeat split; try assumption.
  - destruct (accepted_cases p c cAddr) as [[_ Ha] | [_ Ha]];
      rewrite Ha in Hrun; [discriminate |]. now injection Hrun.
  - destruct (accepted_cases p c cAddr) as [[_ Ha] | [_ Ha]];
      rewrite Ha in Hrun; [discriminate |].
    injection Hrun as _ <- <- _. rewrite GetFortuneInfo_eq. cbn.
    apply lookup_insert_eq.
Qed.

(** X2 — Without a matching hash the aserver leaves the fserver alone:
    either the RPC client and the process behind it are as before, or the
    datagram was a hash equal to the one recomputed from the sender's stored
    nonce and the secret. *)
Theorem no_call_without_verification p msg c secret cAddr :
  snd (fst (AuthServer.handleRequest p msg c secret cAddr)) = c
  \/ exists hash validNonce,
       Go.json.Unmarshal msg = Some hash
       /\ AuthServer.m (AuthServer.records p) !! cAddr = Some validNonce
       /\ Client.hashStr msg {| Nonce := validNonce |} secret = Some (Hash hash).
Proof.
  destruct (handleRequest_cases p msg c secret cAddr)
    as [[_ H] | [(hash & _ & _ & H) | [(hash & v & _ & _ & _ & H)
       | [(hash & v & Hdec & Hrec & Hh & H) | (hash & v & h & _ & _ & _ & _ & H)]]]];
    try (left; rewrite H; reflexivity).
  right. exists hash, v. auto.
Qed.

(** X3 — An error reply of the aserver changes nothing: the table and the
    fserver are as before, the reply goes to the sender, and its text is
    "unknown remote client address" or "unexpected hash value". *)
Theorem error_reply_changes_nothing
    p msg c secret cAddr p' c' (e : ErrMessage) (to : string) :
  AuthServer.handleRequest p msg c secret cAddr
  = (p', c', WriteToUDP (SendErr e) to) ->
  p' = p /\ c' = c /\ to = cAddr
  /\ (Error e = "unknown remote client address"%string
      \/ Error e = "unexpected hash value"%string).
Proof.
  intros Hrun.
  destruct (handleRequest_cases p msg c secret cAddr)
    as [[_ H] | [(hash & _ & _ & H) | [(hash & v & _ & _ & _ & H)
       | [(hash & v & Hdec & Hrec & Hh & H) | (hash & v & h & _ & _ & _ & _ & H)]]]];
    rewrite H in Hrun; try discriminate.
  - injection Hrun as <- <- <- <-. auto.
  - destruct (accepted_cases p c cAddr) as [[_ Ha] | [_ Ha]];
      rewrite Ha in Hrun; discriminate.
  - unfold rejected in Hrun. injection Hrun as <- <- <- <-. auto.
Qed.

(** X4 — [handleRequest] panics exactly when the datagram decodes as a hash,
    the sender has a nonce stored, and the datagram is too short a buffer
    for the varint of nonce plus secret: it is empty, or its [k] bytes face
    a zig-zag value of at least [2 ^ (7 k)]. *)
Theorem handleRequest_panics_iff p msg c secret cAddr :
  snd (AuthServer.handleRequest p msg c secret cAddr) = Panic
  <-> exists hash validNonce,
        Go.json.Unmarshal msg = Some hash
        /\ AuthServer.m (AuthServer.records p) !! cAddr = Some validNonce
        /\ (msg = []
            \/ 2 ^ (7 * Z.of_nat (length msg))
               <= Go.zigzag (Go.add64 validNonce secret)).
Proof.
  assert (Hnone : forall v,
             Go.PutVarint msg (Go.add64 v secret) = None
             <-> msg = []
                 \/ 2 ^ (7 * Z.of_nat (length msg))
                    <= Go.zigzag (Go.add64 v secret)).
  { intros v. unfold Go.PutVarint. apply PutUvarint_None_iff.
    apply zigzag_range. }
  split.
  - intros Hp.
    destruct (handleRequest_cases p msg c secret cAddr)
      as [[_ H] | [(hash & _ & _ & H) | [(hash & v & Hdec & Hrec & Hput & H)
         | [(hash & v & Hdec & Hrec & Hh & H) | (hash & v & h & _ & _ & _ & _ & H)]]]];
      rewrite H in Hp; try discriminate.
    + exists hash, v. repeat split; try assumption. now apply Hnone.
    + destruct (accepted_cases p c cAddr) as [[_ Ha] | [_ Ha]];
        rewrite Ha in Hp; discriminate.
  - intros (hash & v & Hdec & Hrec & Hshort).
    rewrite (handleRequest_panic p msg c secret cAddr hash v Hdec Hrec);
      [reflexivity |]. now apply Hnone.
Qed.

(** X5 — The fortune goes out only to a sender whose address has a nonce
    stored and whose request presents exactly that nonce; what goes out is
    the configured string, to the sender. *)
Theorem fortune_only_for_granted_nonce
    msg this fortuneString cAddr (f : FortuneMessage) (to : string) :
  FortuneServer.fortune msg this fortuneString cAddr
  = WriteToUDP (SendFortune f) to ->
  exists fortuneReq,
    Go.json.Unmarshal msg = Some fortuneReq
    /\ FortuneServer.m this !! cAddr = Some (ReqFortuneNonce fortuneReq)
    /\ Fortune f = fortuneString
    /\ to = cAddr.
Proof.
  unfold FortuneServer.fortune. intros Hrun.
  destruct (Go.json.Unmarshal (T := FortuneReqMessage) msg) as [fortuneReq |];
    [| discriminate].
  destruct (FortuneServer.m this !! cAddr) as [validNonce |]; [| discriminate].
  destruct (Z.eqb_spec (ReqFortuneNonce fortuneReq) validNonce) as [Heq | Hne];
    [| discriminate].
  subst validNonce. injection Hrun as <- <-. exists fortuneReq. auto.
Qed.

(** X6 — Grant, then request.  After [GetFortuneInfo] for an address, a
    request from that address is answered with the fortune if it presents
    the nonce of the grant, and with "incorrect fortune nonce" if it
    presents any other. *)
Theorem grant_then_request q msg fortuneString cAddr fortuneReq :
  Go.json.Unmarshal msg = Some fortuneReq ->
  let '(q', fInfoMsg, _) := FortuneServer.GetFortuneInfo q cAddr in
  (ReqFortuneNonce fortuneReq = FortuneNonce fInfoMsg ->
   FortuneServer.fortune msg (FortuneServer.fortuneServerRPC q') fortuneString
     cAddr
   = WriteToUDP (SendFortune {| Fortune := fortuneString |}) cAddr)
  /\ (ReqFortuneNonce fortuneReq <> FortuneNonce fInfoMsg ->
      FortuneServer.fortune msg (FortuneServer.fortuneServerRPC q')
        fortuneString cAddr
      = WriteToUDP (SendErr {| Error := "incorrect fortune nonce" |}) cAddr).
Proof.
  intros Hdec. rewrite GetFortuneInfo_eq.
  unfold FortuneServer.fortune. rewrite Hdec.
  cbn [FortuneNonce FortuneServer.fortuneServerRPC FortuneServer.m].
  rewrite lookup_insert_eq. split.
  - intros ->. now rewrite Z.eqb_refl.
  - intros Hne.
    now destruct (Z.eqb_spec (ReqFortuneNonce fortuneReq) fserverToken).
Qed.

(** X7 — A grant for one address does not change what the fserver answers
    to another. *)
Theorem grant_leaves_other_clients
    q msg fortuneString (clientAddr cAddr : string) :
  clientAddr <> cAddr ->
  FortuneServer.fortune msg
    (FortuneServer.fortuneServerRPC
       (fst (fst (FortuneServer.GetFortuneInfo q clientAddr))))
    fortuneString cAddr
  = FortuneServer.fortune msg (FortuneServer.fortuneServerRPC q) fortuneString
      cAddr.
Proof.
  intros Hne. rewrite GetFortuneInfo_eq. unfold FortuneServer.fortune. cbn.
  now rewrite lookup_insert_ne.
Qed.


End Handlers.

(** ** What is fed to the checksum, and what comes out *)

(** X9 — On buffers of at least [MaxVarintLen64] bytes the bytes handed to
    [md5.Sum] exist, number between 1 and 10, and identify the sum of nonce
    and secret as an [int64]: two (nonce, secret) pairs give the same bytes
    exactly when their wrapped sums are equal. *)
Theorem digestInput_determines_sum
    (msg1 msg2 : list Z) (nonce1 nonce2 : NonceMessage) (secret1 secret2 : Z) :
  (Go.MaxVarintLen64 <= length msg1)%nat ->
  (Go.MaxVarintLen64 <= length msg2)%nat ->
  exists b1 b2 : list Z,
    Client.digestInput msg1 nonce1 secret1 = Some b1
    /\ Client.digestInput msg2 nonce2 secret2 = Some b2
    /\ (1 <= length b1 <= Go.MaxVarintLen64)%nat
    /\ (b1 = b2
        <-> Go.add64 (Nonce nonce1) secret1 = Go.add64 (Nonce nonce2) secret2).
Proof.
  intros Hlen1 Hlen2. unfold Client.digestInput.
  set (v1 := Go.add64 (Nonce nonce1) secret1).
  set (v2 := Go.add64 (Nonce nonce2) secret2).
  destruct (PutVarint_fits msg1 v1 Hlen1) as [[r1 n1] E1].
  destruct (PutVarint_fits msg2 v2 Hlen2) as [[r2 n2] E2].
  rewrite E1, E2. exists (firstn n1 r1), (firstn n2 r2).
  unfold Go.PutVarint in E1, E2.
  destruct (PutUvarint_count _ _ _ _ E1) as [Hn1 Hr1].
  assert (Hk : (n1 <= Go.MaxVarintLen64)%nat).
  { apply (PutUvarint_count_le Go.MaxVarintLen64 msg1 (Go.zigzag v1) r1 n1);
      [unfold Go.MaxVarintLen64; lia | | exact E1].
    pose proof (zigzag_range v1).
    assert (2 ^ 64 < 2 ^ (7 * Z.of_nat Go.MaxVarintLen64)) by reflexivity.
    lia. }
  repeat split.
  - rewrite length_take. lia.
  - rewrite length_take. lia.
  - intros Heq. apply zigzag_inj; try apply add64_range.
    apply (PutUvarint_inj _ _ _ _ _ _ _ _
             (proj1 (zigzag_range v1)) (proj1 (zigzag_range v2)) E1 E2 Heq).
  - intros Heq. rewrite Heq in E1.
    now destruct (PutUvarint_written _ _ _ _ _ _ _ E1 E2) as [-> ->].
Qed.

(** X10 — The hash string the client sends is 32 characters long, each a
    decimal digit or a letter from [a] to [f]. *)
Theorem hashStr_format (msg : list Z) (nonce : NonceMessage) (secret : Z) h :
  Client.hashStr msg nonce secret = Some h ->
  String.length h = 32%nat
  /\ forallb is_lower_hex (list_ascii_of_string h) = true.
Proof.
  unfold Client.hashStr. intros Hh.
  destruct (Go.PutVarint msg _) as [[r n] |]; [| discriminate].
  cbv zeta in Hh. apply (inj Some) in Hh. subst h. split.
  - now rewrite EncodeToString_length, Sum_length.
  - apply EncodeToString_lower.
Qed.

(** ** The servers over a whole run *)

Section Runs.
Context {S : Type} {src : Go.rand.Source S}.
Context {decH : Go.json.Decoder HashMessage}.
Context {decR : Go.json.Decoder FortuneReqMessage}.

Implicit Types (p : AuthServer.Process (S := S)).
Implicit Types (q : FortuneServer.Process (S := S)).
Implicit Types (c : rpc.Client (S := S)).
Implicit Types (msg : list Z) (cAddr a : string).

Local Abbreviation nonces p := (AuthServer.m (AuthServer.records p)).
Local Abbreviation grants c :=
  (FortuneServer.m (FortuneServer.fortuneServerRPC (rpc.remote c))).

(** One handler, as seen from the two tables. *)
Lemma handleRequest_tables p msg c secret cAddr :
  let '(p', c', o) := AuthServer.handleRequest p msg c secret cAddr in
  (forall a, is_Some (nonces p' !! a)
             <-> is_Some (nonces p !! a)
                 \/ exists n, o = WriteToUDP (SendNonce n) a)
  /\ (forall a, is_Some (grants c' !! a)
                <-> is_Some (grants c !! a)
                    \/ exists f, o = WriteToUDP (SendFortuneInfo f) a)
  /\ (forall a f, o = WriteToUDP (SendFortuneInfo f) a -> is_Some (nonces p !! a))
  /\ (forall a v, nonces p' !! a = Some v ->
                  nonces p !! a = Some v \/ 0 <= v < 2 ^ 63).
Proof.
  destruct (handleRequest_cases p msg c secret cAddr)
    as [[_ H] | [(hash & _ & _ & H) | [(hash & v & _ & _ & _ & H)
       | [(hash & v & Hdec & Hrec & Hh & H) | (hash & v & h & _ & _ & _ & _ & H)]]]];
    rewrite H; clear H.
  - cbn [AuthServer.records AuthServer.m]. repeat split.
    + intros Hs. destruct (decide (cAddr = a)) as [<- | Hne]; [eauto |].
      rewrite lookup_insert_ne in Hs by exact Hne. auto.
    + intros [Hs | [n Hn]].
      * destruct (decide (cAddr = a)) as [<- | Hne].
        -- rewrite lookup_insert_eq. eauto.
        -- now rewrite lookup_insert_ne.
      * injection Hn as _ <-. rewrite lookup_insert_eq. eauto.
    + auto.
    + intros [Hs | [f Hf]]; [exact Hs | discriminate].
    + discriminate.
    + intros a v Hv. destruct (decide (cAddr = a)) as [<- | Hne].
      * rewrite lookup_insert_eq in Hv. injection Hv as <-.
        right. apply Int63_range.
      * rewrite lookup_insert_ne in Hv by exact Hne. auto.
  - repeat split; auto; try (intros [Hs | [x Hx]]; [exact Hs | discriminate]).
    discriminate.
  - repeat split; auto; try (intros [Hs | [x Hx]]; [exact Hs | discriminate]).
    discriminate.
  - destruct (accepted_cases p c cAddr) as [[_ Ha] | [_ Ha]]; rewrite Ha; clear Ha.
    + repeat split; auto; try (intros [Hs | [x Hx]]; [exact Hs | discriminate]).
      discriminate.
    + rewrite GetFortuneInfo_eq.
      cbn [rpc.remote fst FortuneServer.fortuneServerRPC FortuneServer.m].
      repeat split; auto.
      * intros [Hs | [x Hx]]; [exact Hs | discriminate].
      * intros Hs. destruct (decide (cAddr = a)) as [<- | Hne]; [eauto |].
        rewrite lookup_insert_ne in Hs by exact Hne. auto.
      * intros [Hs | [f Hf]].
        -- destruct (decide (cAddr = a)) as [<- | Hne].
           ++ rewrite lookup_insert_eq. eauto.
           ++ now rewrite lookup_insert_ne.
        -- injection Hf as _ <-. rewrite lookup_insert_eq. eauto.
      * intros a f Hf. injection Hf as _ <-. rewrite Hrec. eauto.
  - unfold rejected.
    repeat split; auto; try (intros [Hs | [x Hx]]; [exact Hs | discriminate]).
    discriminate.
Qed.

(** The loop, one datagram further. *)
Lemma serve_cons p c secret (datagram : list Z) cAddr rest :
  AuthServer.serve p c secret ((datagram, cAddr) :: rest)
  = let '(p', c', o) :=
      AuthServer.handleRequest p (AuthServer.ReadFromUDP datagram) c secret cAddr in
    match o with
    | Panic => (p', c', [Panic])
    | _ =>
        let '(p'', c'', os) := AuthServer.serve p' c' secret rest in
        (p'', c'', o :: os)
    end.
Proof. reflexivity. Qed.

(** The two tables after a run, against what the run wrote. *)
Lemma serve_tables (inbox : list (list Z * string)) :
  forall p c secret,
    let '(p', c', os) := AuthServer.serve p c secret inbox in
    (forall a, is_Some (nonces p' !! a)
               <-> is_Some (nonces p !! a)
                   \/ exists n, In (WriteToUDP (SendNonce n) a) os)
    /\ (forall a, is_Some (grants c' !! a)
                  <-> is_Some (grants c !! a)
                      \/ exists f, In (WriteToUDP (SendFortuneInfo f) a) os)
    /\ (forall a v, nonces p' !! a = Some v ->
                    nonces p !! a = Some v \/ 0 <= v < 2 ^ 63).
Proof.
  induction inbox as [| [datagram cAddr] rest IH]; intros p c secret.
  - cbn. repeat split; auto; intros [Hs | [x []]]; exact Hs.
  - rewrite serve_cons.
    pose proof (handleRequest_tables p (AuthServer.ReadFromUDP datagram) c
                  secret cAddr) as Hstep.
    destruct (AuthServer.handleRequest p (AuthServer.ReadFromUDP datagram) c
                secret cAddr) as [[p1 c1] o].
    destruct Hstep as (Hn & Hg & _ & Hr).
    assert (Hgen :
      let '(p', c', os) :=
        (let '(p'', c'', os) := AuthServer.serve p1 c1 secret rest in
         (p'', c'', o :: os)) in
      (forall a, is_Some (nonces p' !! a)
                 <-> is_Some (nonces p !! a)
                     \/ exists n, In (WriteToUDP (SendNonce n) a) os)
      /\ (forall a, is_Some (grants c' !! a)
                    <-> is_Some (grants c !! a)
                        \/ exists f, In (WriteToUDP (SendFortuneInfo f) a) os)
      /\ (forall a v, nonces p' !! a = Some v ->
                      nonces p !! a = Some v \/ 0 <= v < 2 ^ 63)).
    { specialize (IH p1 c1 secret).
      destruct (AuthServer.serve p1 c1 secret rest) as [[p2 c2] os].
      destruct IH as (IHn & IHg & IHr). repeat split.
      - intros Hs. apply IHn in Hs as [Hs | [n Hin]].
        + apply Hn in Hs as [Hs | [n ->]]; [auto | right; exists n; now left].
        + right. exists n. now right.
      - intros [Hs | [n [Ho | Hin]]]; apply IHn.
        + left. apply Hn. auto.
        + left. apply Hn. eauto.
        + eauto.
      - intros Hs. apply IHg in Hs as [Hs | [f Hin]].
        + apply Hg in Hs as [Hs | [f ->]]; [auto | right; exists f; now left].
        + right. exists f. now right.
      - intros [Hs | [f [Ho | Hin]]]; apply IHg.
        + left. apply Hg. auto.
        + left. apply Hg. eauto.
        + eauto.
      - intros a v Hv. apply IHr in Hv as [Hv | Hv]; [apply Hr, Hv | auto]. }
    destruct o; try exact Hgen.
    repeat split.
    + intros Hs. apply Hn in Hs as [Hs | [n Hn']]; [auto | discriminate].
    + intros [Hs | [n [Hin | []]]]; [apply Hn; auto | discriminate].
    + intros Hs. apply Hg in Hs as [Hs | [f Hf]]; [auto | discriminate].
    + intros [Hs | [f [Hin | []]]]; [apply Hg; auto | discriminate].
    + exact Hr.
Qed.

(** X11 — Who the aserver knows.  After any run of the loop an address has
    a nonce stored exactly if it had one before the run or a
    [NonceMessage] was written to it during the run; no entry is ever
    removed. *)
Theorem known_iff_nonce_sent p c secret (inbox : list (list Z * string)) a :
  let '(p', _, os) := AuthServer.serve p c secret inbox in
  is_Some (nonces p' !! a)
  <-> is_Some (nonces p !! a) \/ exists n, In (WriteToUDP (SendNonce n) a) os.
Proof.
  pose proof (serve_tables inbox p c secret) as H.
  destruct (AuthServer.serve p c secret inbox) as [[p' c'] os].
  apply H.
Qed.

(** X12 — Whom the fserver has granted.  After any run of the aserver's
    loop, every address a [FortuneInfoMessage] was written to during the
    run has a fortune nonce stored at the fserver, and so has every address
    that had one before the run: no grant is ever removed. *)
Theorem info_sent_only_with_grant
    p c secret (inbox : list (list Z * string)) a :
  is_Some (grants c !! a)
  \/ (exists f,
        In (WriteToUDP (SendFortuneInfo f) a)
           (snd (AuthServer.serve p c secret inbox))) ->
  is_Some (grants (snd (fst (AuthServer.serve p c secret inbox))) !! a).
Proof.
  pose proof (serve_tables inbox p c secret) as H.
  destruct (AuthServer.serve p c secret inbox) as [[p' c'] os].
  cbn [fst snd]. apply H.
Qed.

(** X13 — From the state [main] starts in, whatever datagrams arrive, every
    nonce in the aserver's table lies in the 63-bit non-negative range. *)
Theorem stored_nonces_in_range
    (g : S) c secret (inbox : list (list Z * string)) a (v : Z) :
  nonces (fst (fst (AuthServer.serve (AuthServer.start g) c secret inbox))) !! a
  = Some v ->
  0 <= v < 2 ^ 63.
Proof.
  pose proof (serve_tables inbox (AuthServer.start g) c secret) as H.
  destruct (AuthServer.serve (AuthServer.start g) c secret inbox)
    as [[p' c'] os].
  destruct H as (_ & _ & Hr). cbn [fst]. intros Hv.
  destruct (Hr a v Hv) as [Hold | Hrange]; [| exact Hrange].
  cbn in Hold. rewrite lookup_empty in Hold. discriminate.
Qed.

(** A run keeps the grants among the known addresses. *)
Lemma serve_grants_known (inbox : list (list Z * string)) :
  forall p c secret,
    (forall a, is_Some (grants c !! a) -> is_Some (nonces p !! a)) ->
    let '(p', c', _) := AuthServer.serve p c secret inbox in
    forall a, is_Some (grants c' !! a) -> is_Some (nonces p' !! a).
Proof.
  induction inbox as [| [datagram cAddr] rest IH]; intros p c secret Hinv;
    [exact Hinv |].
  rewrite serve_cons.
  pose proof (handleRequest_tables p (AuthServer.ReadFromUDP datagram) c
                secret cAddr) as Hstep.
  destruct (AuthServer.handleRequest p (AuthServer.ReadFromUDP datagram) c
              secret cAddr) as [[p1 c1] o].
  destruct Hstep as (Hn & Hg & Hk & _).
  assert (Hinv1 : forall a, is_Some (grants c1 !! a) -> is_Some (nonces p1 !! a)).
  { intros a Hs. apply Hn. left.
    apply Hg in Hs as [Hs | [f Hf]]; [now apply Hinv | now apply (Hk a f)]. }
  specialize (IH p1 c1 secret Hinv1).
  destruct o; try (destruct (AuthServer.serve p1 c1 secret rest) as [[p2 c2] os];
                   exact IH).
  exact Hinv1.
Qed.

(** X14 — With both servers started by their [main], whatever datagrams
    arrive, every address the fserver holds a fortune nonce for is an
    address the aserver holds a nonce for. *)
Theorem grants_among_known
    (g g' : S) (fserverUDP : string) (down : bool) secret
    (inbox : list (list Z * string)) a :
  let c := {| rpc.remote := FortuneServer.start fserverUDP g';
              rpc.shutdown := down |} in
  is_Some
    (grants (snd (fst (AuthServer.serve (AuthServer.start g) c secret inbox)))
       !! a) ->
  is_Some
    (nonces (fst (fst (AuthServer.serve (AuthServer.start g) c secret inbox)))
       !! a).
Proof.
  intros c.
  pose proof (serve_grants_known inbox (AuthServer.start g) c secret) as H.
  destruct (AuthServer.serve (AuthServer.start g) c secret inbox)
    as [[p' c'] os].
  cbn [fst snd]. apply H. intros a' Hs. cbn in Hs.
  rewrite lookup_empty in Hs. now destruct Hs.
Qed.



(** The order of what the fserver writes, against what reached it. *)
Lemma fserver_order (events : list FortuneServer.Event) :
  forall q fortuneString (i : nat) (f : FortuneMessage) a,
    snd (FortuneServer.serve q fortuneString events) !! i
    = Some (inl (WriteToUDP (SendFortune f) a)) ->
    is_Some (FortuneServer.m (FortuneServer.fortuneServerRPC q) !! a)
    \/ exists j : nat,
         (j < i)%nat /\ events !! j = Some (FortuneServer.Call a).
Proof.
  induction events as [| ev rest IH]; intros q fortuneString i f a;
    [discriminate |].
  destruct ev as [datagram cAddr | clientAddr]; cbn [FortuneServer.serve].
  - specialize (IH q fortuneString).
    destruct (FortuneServer.serve q fortuneString rest) as [q' out].
    cbn [snd] in *. destruct i as [| i]; cbn [lookup list_lookup].
    + intros Ho. apply (inj Some) in Ho. apply (inj inl) in Ho.
      left.
      unfold FortuneServer.fortune in Ho.
      destruct (Go.json.Unmarshal (T := FortuneReqMessage) _); [| discriminate].
      destruct (FortuneServer.m (FortuneServer.fortuneServerRPC q) !! cAddr)
        as [validNonce |] eqn:Hrec; [| discriminate].
      destruct (negb _); [discriminate |]. injection Ho as _ <-. eauto.
    + intros Hi. destruct (IH i f a Hi) as [Hs | (j & Hj & Hev)]; [now left |].
      right. exists (Datatypes.S j). split; [lia | exact Hev].
  - rewrite GetFortuneInfo_eq.
    match goal with
    | |- context [FortuneServer.serve ?q1 fortuneString rest] =>
        specialize (IH q1 fortuneString);
        destruct (FortuneServer.serve q1 fortuneString rest) as [q' out]
    end.
    cbn [snd] in *. destruct i as [| i]; cbn [lookup list_lookup];
      [discriminate |].
    intros Hi. destruct (IH i f a Hi) as [Hs | (j & Hj & Hev)].
    + cbn in Hs. destruct (decide (clientAddr = a)) as [<- | Hne].
      * right. exists 0%nat. split; [lia | reflexivity].
      * rewrite lookup_insert_ne in Hs by exact Hne. now left.
    + right. exists (Datatypes.S j). split; [lia | exact Hev].
Qed.

(** X16 — From the state its [main] starts in, the fserver writes the
    fortune to an address only after [GetFortuneInfo] was called for that
    address earlier. *)
Theorem fortune_only_after_grant
    (fserverUDP : string) (g : S) fortuneString
    (events : list FortuneServer.Event) (i : nat) (f : FortuneMessage) a :
  snd (FortuneServer.serve (FortuneServer.start fserverUDP g) fortuneString
         events) !! i
  = Some (inl (WriteToUDP (SendFortune f) a)) ->
  exists j : nat, (j < i)%nat /\ events !! j = Some (FortuneServer.Call a).
Proof.
  intros Hi.
  destruct (fserver_order events _ fortuneString i f a Hi) as [Hs | H];
    [| exact H].
  cbn in Hs. rewrite lookup_empty in Hs. now destruct Hs.
Qed.

End Runs.

(** ** The client from its first call to its last *)

Lemma readInto_length (msg datagram : list Z) :
  length (fst (Client.readInto msg datagram)) = length msg.
Proof.
  unfold Client.readInto. cbn [fst].
  rewrite length_app, length_drop, !length_take. lia.
Qed.


Section EndToEnd.
Context {S : Type} {src : Go.rand.Source S}.
Context {parser : Go.strconv.Parser} {resolver : Go.net.Resolver}.
Context {decH : Go.json.Decoder HashMessage}.
Context {decR : Go.json.Decoder FortuneReqMessage}.
Context {decN : Go.json.Decoder NonceMessage}.
Context {decI : Go.json.Decoder FortuneInfoMessage}.
Context {decF : Go.json.Decoder FortuneMessage}.
Context {encE : Go.json.Encoder ErrMessage}.
Context {encN : Go.json.Encoder NonceMessage}.
Context {encI : Go.json.Encoder FortuneInfoMessage}.
Context {encF : Go.json.Encoder FortuneMessage}.
Context {encQ : Go.json.Encoder FortuneReqMessage}.

Implicit Types (w : System.World (S := S)).

Lemma Crashes_DialUDP_inv laddr raddr k :
  Crashes (Client.DialUDP laddr raddr k) -> exists ok, Crashes (k ok).
Proof. intros H. inversion H. eauto. Qed.

Lemma Crashes_Write_inv data k :
  Crashes (Client.Write data k) -> exists ok, Crashes (k ok).
Proof. intros H. inversion H. eauto. Qed.

Lemma Crashes_Read_inv k : Crashes (Client.Read k) -> exists r, Crashes (k r).
Proof. intros H. inversion H. eauto. Qed.

Lemma Crashes_Close_inv k : Crashes (Client.Close k) -> exists ok, Crashes (k ok).
Proof. intros H. inversion H. eauto. Qed.

Lemma Crashes_Println line : ~ Crashes (Client.Println line).
Proof. intros H. inversion H. Qed.

Lemma Crashes_Exit code : ~ Crashes (Client.Exit code).
Proof. intros H. inversion H. Qed.

Lemma Crashes_printErr ok k : Crashes (Client.printErr ok k) -> Crashes k.
Proof. destruct ok; [trivial |]. intros H. now apply Crashes_Exit in H. Qed.

Lemma askFortune_no_crash (msg : list Z) (fortuneInfo : FortuneInfoMessage) :
  ~ Crashes (Client.askFortune msg fortuneInfo).
Proof.
  unfold Client.askFortune. intros H.
  apply Crashes_Write_inv in H as [ok H]. apply Crashes_printErr in H.
  apply Crashes_Read_inv in H as [[datagram |] H];
    [| now apply Crashes_Exit in H].
  destruct (Client.readInto msg datagram) as [msg' n].
  destruct (Go.json.Unmarshal (T := FortuneMessage) (firstn n msg')).
  - now apply Crashes_Println in H.
  - now apply Crashes_Exit in H.
Qed.

Lemma answerChallenge_no_crash
    (lAddr : string) (msg : list Z) (nonce : NonceMessage) (secret : Z) :
  (Go.MaxVarintLen64 <= length msg)%nat ->
  ~ Crashes (Client.answerChallenge lAddr msg nonce secret).
Proof.
  intros Hlen. unfold Client.answerChallenge.
  destruct (PutVarint_fits msg (Go.add64 (Nonce nonce) secret) Hlen)
    as [[msg' n] ->].
  cbv zeta. intros H.
  apply Crashes_Write_inv in H as [ok H]. apply Crashes_printErr in H.
  apply Crashes_Read_inv in H as [[datagram |] H];
    [| now apply Crashes_Exit in H].
  destruct (Client.readInto msg' datagram) as [msg'' n'].
  destruct (Go.json.Unmarshal (T := FortuneInfoMessage) (firstn n' msg''))
    as [fortuneInfo |]; [| now apply Crashes_Exit in H].
  destruct (Go.net.ResolveUDPAddr (FortuneServer fortuneInfo)) as [fAddr |];
    [| now apply Crashes_Exit in H].
  apply Crashes_Close_inv in H as [ok1 H]. apply Crashes_printErr in H.
  apply Crashes_DialUDP_inv in H as [ok2 H]. apply Crashes_printErr in H.
  now apply askFortune_no_crash in H.
Qed.

(** With its three arguments in hand [main] does not panic: the buffer it
    encodes the varint into keeps its 1024 bytes through every [Read]. *)
Lemma main_no_crash (localAddr serverAddr secretStr : string) :
  ~ Crashes (Client.main localAddr serverAddr secretStr).
Proof.
  unfold Client.main.
  destruct (Go.strconv.ParseInt secretStr) as [secret |];
    [| apply Crashes_Exit].
  destruct (Go.net.ResolveUDPAddr serverAddr) as [aAddr |];
    [| apply Crashes_Exit].
  destruct (Go.net.ResolveUDPAddr localAddr) as [lAddr |];
    [| apply Crashes_Exit].
  intros H.
  apply Crashes_DialUDP_inv in H as [ok H]. apply Crashes_printErr in H.
  apply Crashes_Write_inv in H as [ok1 H]. apply Crashes_printErr in H.
  apply Crashes_Read_inv in H as [[datagram |] H];
    [| now apply Crashes_Exit in H].
  pose proof (readInto_length (<[2%nat := 2]> (repeat 0 1024)) datagram) as Hl.
  destruct (Client.readInto (<[2%nat := 2]> (repeat 0 1024)) datagram)
    as [msg n].
  cbn [fst] in Hl. rewrite length_insert, repeat_length in Hl.
  destruct (Go.json.Unmarshal (T := NonceMessage) (firstn n msg)) as [nonce |];
    [| now apply Crashes_Exit in H].
  apply answerChallenge_no_crash in H; [exact H |].
  rewrite Hl. unfold Go.MaxVarintLen64. lia.
Qed.

(** X17 — The client panics exactly when arguments are missing.  [main]
    reaches a run-time panic if and only if [os.Args] has fewer than four
    entries (the program name and three arguments), at one of the index
    expressions it starts with; with all three arguments given, whatever
    they are, whatever the operating system answers to its calls and
    whatever datagrams it reads, it does not panic. *)
Theorem client_panics_iff_args_missing (Args : list string) :
  Crashes (Client.mainFromArgs Args) <-> (length Args < 4)%nat.
Proof.
  destruct Args as [| a0 [| a1 [| a2 [| a3 rest]]]];
    cbn [Client.mainFromArgs lookup list_lookup length];
    try (split; [intros _; lia | intros _; constructor]).
  split; [| lia]. intros H. now apply main_no_crash in H.
Qed.


End EndToEnd.

(** ** The further properties at work on concrete datagrams *)

Example demo_run :
  snd (Demo.run Demo.main Demo.world0 None []) = System.Printed "seize the day".
Proof. vm_compute. reflexivity. Qed.

Lemma FortuneInfo_only_after_verification_witness :
  exists (hash : HashMessage) (validNonce : Z),
    Demo.decodeHash Demo.hashDatagram1 = Some hash
    /\ AuthServer.m (AuthServer.records Demo.aserver1) !! Demo.addr
       = Some validNonce
    /\ Client.hashStr Demo.hashDatagram1 {| Nonce := validNonce |} Demo.secret
       = Some (Hash hash)
    /\ Demo.addr = Demo.addr
    /\ FortuneServer.m (FortuneServer.fortuneServerRPC (rpc.remote Demo.link1))
         !! Demo.addr
       = Some (FortuneNonce Demo.grant1).
Proof.
  apply (FortuneInfo_only_after_verification (src := Demo.lcg)
           (decH := Demo.decodeHash) Demo.aserver1 Demo.hashDatagram1
           Demo.link0 Demo.secret Demo.addr Demo.aserver1 Demo.link1
           Demo.grant1 Demo.addr).
  run.
Defined.

Lemma error_reply_changes_nothing_witness :
  Demo.aserver0 = Demo.aserver0 /\ Demo.link0 = Demo.link0
  /\ Demo.addr = Demo.addr
  /\ (Error {| Error := "unknown remote client address" |}
      = "unknown remote client address"%string
      \/ Error {| Error := "unknown remote client address" |}
         = "unexpected hash value"%string).
Proof.
  apply (error_reply_changes_nothing (src := Demo.lcg)
           (decH := Demo.decodeHash) Demo.aserver0 Demo.hashDatagram1
           Demo.link0 Demo.secret Demo.addr Demo.aserver0 Demo.link0
           {| Error := "unknown remote client address" |} Demo.addr).
  run.
Defined.

Lemma fortune_only_for_granted_nonce_witness :
  exists fortuneReq : FortuneReqMessage,
    Demo.decodeFortuneReq Demo.fortuneReq7 = Some fortuneReq
    /\ FortuneServer.m (Demo.receiver {[ Demo.addr := 7 ]}) !! Demo.addr
       = Some (ReqFortuneNonce fortuneReq)
    /\ Fortune {| Fortune := "seize the day" |} = "seize the day"%string
    /\ Demo.addr = Demo.addr.
Proof.
  apply (fortune_only_for_granted_nonce (decR := Demo.decodeFortuneReq)
           Demo.fortuneReq7 (Demo.receiver {[ Demo.addr := 7 ]})
           "seize the day" Demo.addr {| Fortune := "seize the day" |}
           Demo.addr).
  run.
Defined.

Lemma grant_then_request_witness :
  let '(q', fInfoMsg, _) := Demo.GetFortuneInfo Demo.fserver0 Demo.addr in
  (Demo.nonce110 = FortuneNonce fInfoMsg ->
   Demo.fortune Demo.fortuneReq1 (FortuneServer.fortuneServerRPC q')
     "seize the day" Demo.addr
   = WriteToUDP (SendFortune {| Fortune := "seize the day" |}) Demo.addr)
  /\ (Demo.nonce110 <> FortuneNonce fInfoMsg ->
      Demo.fortune Demo.fortuneReq1 (FortuneServer.fortuneServerRPC q')
        "seize the day" Demo.addr
      = WriteToUDP (SendErr {| Error := "incorrect fortune nonce" |}) Demo.addr).
Proof.
  apply (grant_then_request (src := Demo.lcg) (decR := Demo.decodeFortuneReq)
           Demo.fserver0 Demo.fortuneReq1 "seize the day" Demo.addr
           {| ReqFortuneNonce := Demo.nonce110 |}).
  run.
Defined.

Lemma grant_leaves_other_clients_witness :
  Demo.fortune Demo.fortuneReq1
    (FortuneServer.fortuneServerRPC
       (fst (fst (Demo.GetFortuneInfo Demo.fserver0 "10.0.0.7:4040"))))
    "seize the day" Demo.addr
  = Demo.fortune Demo.fortuneReq1 (FortuneServer.fortuneServerRPC Demo.fserver0)
      "seize the day" Demo.addr.
Proof.
  apply (grant_leaves_other_clients (src := Demo.lcg)
           (decR := Demo.decodeFortuneReq) Demo.fserver0 Demo.fortuneReq1
           "seize the day" "10.0.0.7:4040" Demo.addr).
  discriminate.
Defined.


Lemma digestInput_determines_sum_witness :
  exists b1 b2 : list Z,
    Client.digestInput (repeat 0 1024) {| Nonce := Demo.nonce1 |} Demo.secret
    = Some b1
    /\ Client.digestInput Demo.hashDatagram1 {| Nonce := Demo.nonce1 + 1 |}
         (Demo.secret - 1)
       = Some b2
    /\ (1 <= length b1 <= Go.MaxVarintLen64)%nat
    /\ (b1 = b2
        <-> Go.add64 Demo.nonce1 Demo.secret
            = Go.add64 (Demo.nonce1 + 1) (Demo.secret - 1)).
Proof.
  apply (digestInput_determines_sum (repeat 0 1024) Demo.hashDatagram1
           {| Nonce := Demo.nonce1 |} {| Nonce := Demo.nonce1 + 1 |}
           Demo.secret (Demo.secret - 1)); run.
Defined.

Lemma hashStr_format_witness :
  String.length (Hash Demo.hashMsg1) = 32%nat
  /\ forallb is_lower_hex (list_ascii_of_string (Hash Demo.hashMsg1)) = true.
Proof.
  apply (hashStr_format (repeat 0 1024) {| Nonce := Demo.nonce1 |} Demo.secret).
  run.
Defined.

Lemma info_sent_only_with_grant_witness :
  is_Some
    (FortuneServer.m
       (FortuneServer.fortuneServerRPC
          (rpc.remote
             (snd (fst (Demo.serve Demo.aserver0 Demo.link0 Demo.secret
                          Demo.inbox1)))))
       !! Demo.addr).
Proof.
  apply (info_sent_only_with_grant (src := Demo.lcg) (decH := Demo.decodeHash)
           Demo.aserver0 Demo.link0 Demo.secret Demo.inbox1 Demo.addr).
  right. exists Demo.grant1. vm_compute. right. left. reflexivity.
Defined.

Lemma stored_nonces_in_range_witness : 0 <= Demo.nonce1 < 2 ^ 63.
Proof.
  apply (stored_nonces_in_range (src := Demo.lcg) (decH := Demo.decodeHash)
           0 Demo.link0 Demo.secret Demo.inbox1 Demo.addr Demo.nonce1).
  run.
Defined.

Lemma grants_among_known_witness :
  is_Some
    (AuthServer.m
       (AuthServer.records
          (fst (fst (Demo.serve Demo.aserver0 Demo.link0 Demo.secret
                       Demo.inbox1))))
       !! Demo.addr).
Proof.
  apply (grants_among_known (src := Demo.lcg) (decH := Demo.decodeHash)
           0 0 "127.0.0.1:9090" false Demo.secret Demo.inbox1 Demo.addr).
  vm_compute. eexists. reflexivity.
Defined.


Lemma fortune_only_after_grant_witness :
  exists j : nat,
    (j < 1)%nat /\ Demo.events1 !! j = Some (FortuneServer.Call Demo.addr).
Proof.
  apply (fortune_only_after_grant (src := Demo.lcg)
           (decR := Demo.decodeFortuneReq) "127.0.0.1:9090" 0 "seize the day"
           Demo.events1 1%nat {| Fortune := "seize the day" |} Demo.addr).
  run.
Defined.

